(** * ATM web simulator (app.py): a shallow embedding and its properties

    The Flask module [app.py] keeps a per-client session (PIN, balance,
    login flags, progress of the PIN change) and a ledger file of
    withdrawals.  This development embeds its handlers as functions over
    an explicit session and ledger file, with Python's exceptions as an
    error result, and proves the properties stated for them.

    Conventions of the embedding:
    - a Python [str] is a [string] whose characters are the code points
      0..255 (so the pound sign is the single character 163);
    - a Python [float] is an IEEE 754 binary64 value, [spec_float] at
      precision 53 and maximal exponent 1024; a Python [int] is a [Z];
    - the session cookie only ever holds the keys written by this module,
      each with one type, so it is a record of optional fields
      ([None]: the key is absent);
    - the body of a request is a JSON object with string members;
    - [datetime.now()] is an input of the handler that needs it. *)

From Stdlib Require Import ZArith QArith List Bool Lia Ascii String DecimalString.
From Stdlib Require Import SpecFloat.
From stdpp Require Import base option gmap strings.

Local Open Scope string_scope.
Local Open Scope Z_scope.

(** ** Python exceptions as an error result *)

Inductive exn := ValueError | OverflowError | KeyError | TypeError.

Inductive result (A : Type) :=
  | Return (a : A)
  | Raise (e : exn).
Arguments Return {A} a.
Arguments Raise {A} e.

#[global] Instance exn_eq_dec : EqDecision exn.
Proof. solve_decision. Defined.

#[global] Instance result_ret : MRet result := fun A a => Return a.
#[global] Instance result_bind : MBind result := fun A B f m =>
  match m with
  | Return a => f a
  | Raise e => Raise e
  end.

(** [try: body except e: handler] *)
Definition try_except {A} (body : result A) (e : exn) (handler : result A) : result A :=
  match body with
  | Return a => Return a
  | Raise e' => if decide (e' = e) then handler else Raise e'
  end.

(** ** Python floats and the built-in conversions the module calls *)

Module PyFloat.

Definition prec : Z := 53.
Definition emax : Z := 1024.
Abbreviation float := spec_float.

Definition is_nan (f : float) : bool :=
  match f with S754_nan => true | _ => false end.

Definition is_finite (f : float) : bool :=
  match f with S754_zero _ | S754_finite _ _ _ => true | _ => false end.

(** Exact comparison of a float with an int, as [float.__lt__] and friends
    do it: [None] when the float is a NaN. *)
Definition compare_int (f : float) (n : Z) : option comparison :=
  match f with
  | S754_nan => None
  | S754_infinity s => Some (if s then Lt else Gt)
  | S754_zero _ => Some (0 ?= n)
  | S754_finite s m e =>
      let sm := cond_Zopp s (Zpos m) in
      Some (if 0 <=? e then (sm * 2 ^ e ?= n) else (sm ?= n * 2 ^ (- e)))
  end.

(** [f <= n] *)
Definition le_int (f : float) (n : Z) : bool :=
  match compare_int f n with Some (Lt | Eq) => true | _ => false end.

(** [f != n] *)
Definition ne_int (f : float) (n : Z) : bool :=
  match compare_int f n with Some Eq => false | _ => true end.

(** [n > f] *)
Definition int_gt (n : Z) (f : float) : bool :=
  match compare_int f n with Some Lt => true | _ => false end.

(** [int(f)]: truncation towards zero; NaN and the infinities raise. *)
Definition to_int (f : float) : result Z :=
  match f with
  | S754_nan => Raise ValueError
  | S754_infinity _ => Raise OverflowError
  | S754_zero _ => Return 0
  | S754_finite s m e =>
      Return (if 0 <=? e then cond_Zopp s (Zpos m * 2 ^ e)
              else cond_Zopp s (Zpos m / 2 ^ (- e)))
  end.

(** [float(n)] for an int: round to nearest, ties to even; an int beyond
    the largest float raises. *)
Definition of_int (n : Z) : result float :=
  match binary_normalize prec emax n 0 false with
  | S754_infinity _ => Raise OverflowError
  | f => Return f
  end.

(** [f - n] for a float and an int: the int is converted first. *)
Definition sub_int (f : float) (n : Z) : result float :=
  g ← of_int n; Return (SFsub prec emax f g).

(** *** Decimal output: [format(f, '.2f')] *)

Definition string_of_N (n : N) : string := NilZero.string_of_uint (N.to_uint n).

Definition two_digits (n : Z) : string :=
  string_of_N (Z.to_N (n / 10)) +:+ string_of_N (Z.to_N (n mod 10)).

(** The hundredths nearest to [m * 2^e], ties to the even one. *)
Definition round_hundredths (m : positive) (e : Z) : Z :=
  if 0 <=? e then Zpos m * 2 ^ e * 100
  else
    let den := 2 ^ (- e) in
    let q := (Zpos m * 100) / den in
    let r := (Zpos m * 100) mod den in
    match 2 * r ?= den with
    | Lt => q
    | Eq => if Z.even q then q else q + 1
    | Gt => q + 1
    end.

Definition format_2f (f : float) : string :=
  match f with
  | S754_nan => "nan"
  | S754_infinity s => (if s then "-" else "") +:+ "inf"
  | S754_zero s => (if s then "-" else "") +:+ "0.00"
  | S754_finite s m e =>
      let h := round_hundredths m e in
      (if s then "-" else "") +:+ string_of_N (Z.to_N (h / 100)) +:+ "."
        +:+ two_digits (h mod 100)
  end.

(** [format(n, '.2f')] for an int converts it to a float first. *)
Definition format_int_2f (n : Z) : result string :=
  f ← of_int n; Return (format_2f f).

(** *** Decimal input: [float(s)] for a string *)

Definition code (c : ascii) : N := N_of_ascii c.

Definition is_space (c : ascii) : bool :=
  let n := code c in
  ((9 <=? n) && (n <=? 13) || (n =? 32) || (n =? 133) || (n =? 160))%N.

Definition is_digit (c : ascii) : bool :=
  let n := code c in ((48 <=? n) && (n <=? 57))%N.

Definition digit_val (c : ascii) : Z := Z.of_N (code c) - 48.

Definition is_char (c d : ascii) : bool := (code c =? code d)%N.

Definition lower (c : ascii) : ascii :=
  let n := code c in
  if ((65 <=? n) && (n <=? 90))%N then ascii_of_N (n + 32) else c.

(** Underscores may only stand between two digits; they are dropped
    before the number is read. *)
Fixpoint drop_underscores (prev : ascii) (l : list ascii) : option (list ascii) :=
  match l with
  | [] => if is_char prev "_" then None else Some []
  | c :: l' =>
      if is_char c "_" then
        if is_digit prev then drop_underscores c l' else None
      else if is_char prev "_" && negb (is_digit c) then None
      else cons c <$> drop_underscores c l'
  end.

Fixpoint lstrip (l : list ascii) : list ascii :=
  match l with
  | c :: l' => if is_space c then lstrip l' else l
  | [] => []
  end.

Definition strip (l : list ascii) : list ascii := rev (lstrip (rev (lstrip l))).

(** Reads the longest prefix of decimal digits: its value continued from
    [acc], the number of digits, and the rest. *)
Fixpoint digits (acc : Z) (n : Z) (l : list ascii) : Z * Z * list ascii :=
  match l with
  | c :: l' => if is_digit c then digits (10 * acc + digit_val c) (n + 1) l' else (acc, n, l)
  | [] => (acc, n, l)
  end.

Definition sign (l : list ascii) : bool * list ascii :=
  match l with
  | c :: l' =>
      if is_char c "-" then (true, l')
      else if is_char c "+" then (false, l')
      else (false, l)
  | [] => (false, l)
  end.

(** The float nearest to [d * 10^e] (ties to even), with the sign [neg]. *)
Definition of_decimal (neg : bool) (d : Z) (e : Z) : float :=
  match d with
  | Zpos p =>
      SFdiv prec emax
        (S754_finite neg (Z.to_pos (Zpos p * 10 ^ Z.max e 0)) 0)
        (S754_finite false (Z.to_pos (10 ^ Z.max (- e) 0)) 0)
  | _ => S754_zero neg
  end.

(** The exponent part, [e] or [E], an optional sign and at least one
    digit; [None] when it is malformed. *)
Definition exponent (l : list ascii) : option (Z * list ascii) :=
  match l with
  | [] => Some (0, [])
  | c :: l' =>
      if is_char (lower c) "e" then
        let '(neg, l1) := sign l' in
        let '(v, n, l2) := digits 0 0 l1 in
        if n =? 0 then None else Some (cond_Zopp neg v, l2)
      else Some (0, l)
  end.

(** [digits [. digits]] or [. digits], then the exponent part; the whole
    of the input has to be used up. *)
Definition number (neg : bool) (l : list ascii) : option float :=
  let '(ip, ni, l1) := digits 0 0 l in
  let '(d, nf, l2) :=
    match l1 with
    | c :: l1' => if is_char c "." then digits ip 0 l1' else (ip, 0, l1)
    | [] => (ip, 0, l1)
    end in
  if ni + nf =? 0 then None
  else
    match exponent l2 with
    | Some (e, []) => Some (of_decimal neg d (e - nf))
    | _ => None
    end.

Definition inf_or_nan (neg : bool) (l : list ascii) : option float :=
  let w := string_of_list_ascii (map lower l) in
  if (w =? "inf")%string || (w =? "infinity")%string then Some (S754_infinity neg)
  else if (w =? "nan")%string then Some S754_nan
  else None.

(** [float(s)]: [None] stands for the [ValueError] of a string that is
    not a number. *)
Definition parse (s : string) : option float :=
  l ← drop_underscores "000" (list_ascii_of_string s);
  match strip l with
  | [] => None
  | l' =>
      let '(neg, body) := sign l' in
      match number neg body with
      | Some f => Some f
      | None => inf_or_nan neg body
      end
  end.

Definition of_str (s : string) : result float :=
  match parse s with
  | Some f => Return f
  | None => Raise ValueError
  end.

End PyFloat.

Import PyFloat.

(** ** Configuration *)

Definition pound : string := String "163" EmptyString.

Definition DEFAULT_PIN : string := "1234".
Definition ADMIN_PASSWORD : string := "4321".
(** The literal [123.45], that is 8687021468732621 / 2^46. *)
Definition STARTING_BALANCE : float := S754_finite false 8687021468732621 (-46).

(** ** Data model *)

(** The Flask session: a dict with the keys below. *)
Record Session := mkSession {
  pin : option string;
  balance : option float;
  logged_in : option bool;
  is_admin : option bool;
  pin_change_step : option Z;
  new_pin : option string
}.

(** The session of a new client, and of one after [session.clear()]. *)
Definition empty_session : Session := mkSession None None None None None None.

Definition set_pin (v : string) (s : Session) : Session :=
  mkSession (Some v) (balance s) (logged_in s) (is_admin s) (pin_change_step s) (new_pin s).
Definition set_balance (v : float) (s : Session) : Session :=
  mkSession (pin s) (Some v) (logged_in s) (is_admin s) (pin_change_step s) (new_pin s).
Definition set_logged_in (v : bool) (s : Session) : Session :=
  mkSession (pin s) (balance s) (Some v) (is_admin s) (pin_change_step s) (new_pin s).
Definition set_is_admin (v : bool) (s : Session) : Session :=
  mkSession (pin s) (balance s) (logged_in s) (Some v) (pin_change_step s) (new_pin s).
Definition set_pin_change_step (v : Z) (s : Session) : Session :=
  mkSession (pin s) (balance s) (logged_in s) (is_admin s) (Some v) (new_pin s).
Definition set_new_pin (v : string) (s : Session) : Session :=
  mkSession (pin s) (balance s) (logged_in s) (is_admin s) (pin_change_step s) (Some v).
(** [session.pop('new_pin', None)] *)
Definition pop_new_pin (s : Session) : Session :=
  mkSession (pin s) (balance s) (logged_in s) (is_admin s) (pin_change_step s) None.

(** Truth value of [session.get(key)] for a boolean key: absent is false. *)
Definition truthy (v : option bool) : bool := default false v.

(** One entry of the ledger file. *)
Record Transaction := mkTransaction {
  timestamp : string;
  type : string;
  amount : Z;
  balance_after : float;
  formatted : string
}.

(** JSON values of the responses. *)
#[warnings="-register-all"]
Inductive json :=
  | JBool (b : bool)
  | JInt (n : Z)
  | JFloat (f : float)
  | JStr (s : string)
  | JList (l : list json)
  | JObj (members : list (string * json)).

Inductive body :=
  | Json (j : json)
  | Template (name : string).

(** A response and its HTTP status. *)
Definition response : Type := body * Z.

Definition jsonify (members : list (string * json)) : body := Json (JObj members).

Definition json_of_transaction (t : Transaction) : json :=
  JObj [("timestamp", JStr (timestamp t)); ("type", JStr (type t));
        ("amount", JInt (amount t)); ("balance_after", JFloat (balance_after t));
        ("formatted", JStr (formatted t))].

(** The second component of what [validate_withdrawal] returns: a message
    or the amount. *)
Inductive pyval :=
  | PStr (s : string)
  | PInt (n : Z).

Definition json_of_pyval (v : pyval) : json :=
  match v with
  | PStr s => JStr s
  | PInt n => JInt n
  end.

(** What a handler works on: the client's session and the ledger file
    [data/transactions.json] ([None]: no file, or one that does not
    decode). *)
Record world := mkWorld {
  session : Session;
  file : option (list Transaction)
}.

(** ** Handlers as state transformers that may raise

    A computation gets the world and gives the world it leaves and either
    its value or the exception it raised; what was written before an
    exception stays written. *)

Definition M (A : Type) : Type := world -> world * result A.

#[global] Instance M_ret : MRet M := fun A a w => (w, Return a).
#[global] Instance M_bind : MBind M := fun A B f m w =>
  match m w with
  | (w', Return a) => f a w'
  | (w', Raise e) => (w', Raise e)
  end.

Definition lift {A} (r : result A) : M A := fun w => (w, r).
Definition get_session : M Session := fun w => (w, Return (session w)).
Definition modify_session (f : Session -> Session) : M unit :=
  fun w => (mkWorld (f (session w)) (file w), Return tt).
(** [session[key]]: a [KeyError] when the key is absent. *)
Definition item {A} (field : Session -> option A) : M A :=
  fun w => (w, match field (session w) with Some v => Return v | None => Raise KeyError end).

(** ** Utility functions *)

Definition load_transactions : M (list Transaction) :=
  fun w => (w, Return (default [] (file w))).

Definition save_transactions (transactions : list Transaction) : M unit :=
  fun w => (mkWorld (session w) (Some transactions), Return tt).

Definition is_alpha (c : ascii) : bool :=
  let n := code (lower c) in ((97 <=? n) && (n <=? 122))%N.
Definition upper (c : ascii) : ascii :=
  let n := code c in
  if ((97 <=? n) && (n <=? 122))%N then ascii_of_N (n - 32) else c.

(** [str.title()] on the letters a-z and A-Z. *)
Fixpoint title_from (prev_cased : bool) (s : string) : string :=
  match s with
  | EmptyString => EmptyString
  | String c s' =>
      String (if is_alpha c then (if prev_cased then lower c else upper c) else c)
             (title_from (is_alpha c) s')
  end.
Definition title (s : string) : string := title_from false s.

Definition add_transaction (amount : Z) (balance_after : float) (now : string)
    (transaction_type : string) : M Transaction :=
  transactions ← load_transactions;
  let timestamp := now in
  amount_2f ← lift (format_int_2f amount);
  let transaction :=
    {| timestamp := timestamp;
       type := transaction_type;
       amount := amount;
       balance_after := balance_after;
       formatted := timestamp +:+ " | " +:+ title transaction_type +:+ " " +:+ pound
                      +:+ amount_2f +:+ " | Balance " +:+ pound +:+ format_2f balance_after |} in
  let transactions := (transactions ++ [transaction])%list in
  save_transactions transactions;;
  mret transaction.

Definition initialize_session : M unit :=
  modify_session (fun s => if pin s is None then set_pin DEFAULT_PIN s else s);;
  modify_session (fun s => if balance s is None then set_balance STARTING_BALANCE s else s);;
  modify_session (fun s => if logged_in s is None then set_logged_in false s else s);;
  modify_session (fun s => if is_admin s is None then set_is_admin false s else s);;
  modify_session (fun s => if pin_change_step s is None then set_pin_change_step 0 s else s).

Definition validate_withdrawal (amount_str : string) (balance : float) : result (bool * pyval) :=
  try_except
    (amount ← of_str amount_str;
     if le_int amount 0 then
       Return (false, PStr ("Amount must be greater than " +:+ pound +:+ "0."))
     else
       i ← to_int amount;
       if ne_int amount i then
         Return (false, PStr "Please enter a whole number (e.g., 10, 20, 30).")
       else
         let amount := i in
         if negb (amount mod 10 =? 0) then
           Return (false, PStr ("Please enter an amount in multiples of " +:+ pound +:+ "10."))
         else if int_gt amount balance then
           Return (false, PStr ("Insufficient funds. Your balance is " +:+ pound
                                  +:+ format_2f balance))
         else Return (true, PInt amount))
    ValueError
    (Return (false, PStr "Please enter a valid number.")).

(** ** Routes *)

Definition not_authorized : response :=
  (jsonify [("error", JStr "Not authorized")], 401).

(** [not session.get('logged_in') or session.get('is_admin')] *)
Definition not_customer (s : Session) : bool :=
  negb (truthy (logged_in s)) || truthy (is_admin s).

Definition index : M response :=
  initialize_session;;
  mret (Template "index.html", 200).

Definition login_failed_message : string :=
  "Incorrect PIN or password. Please try again.".

Definition api_login (data : gmap string string) : M response :=
  let pin_attempt := default "" (data !! "pin") in
  initialize_session;;
  if bool_decide (pin_attempt = ADMIN_PASSWORD) then
    modify_session (set_logged_in true);;
    modify_session (set_is_admin true);;
    mret (jsonify [("success", JBool true); ("is_admin", JBool true);
                   ("message", JStr "Admin login successful!")], 200)
  else
    session_pin ← item pin;
    if bool_decide (pin_attempt = session_pin) then
      modify_session (set_logged_in true);;
      modify_session (set_is_admin false);;
      transactions ← load_transactions;
      session_balance ← item balance;
      mret (jsonify [("success", JBool true); ("is_admin", JBool false);
                     ("message", JStr "Login successful!");
                     ("transaction_count", JInt (Z.of_nat (List.length transactions)));
                     ("balance", JFloat session_balance)], 200)
    else
      mret (jsonify [("success", JBool false);
                     ("message", JStr login_failed_message)], 200).

Definition api_balance : M response :=
  s ← get_session;
  if not_customer s then mret not_authorized
  else
    session_balance ← item balance;
    mret (jsonify [("balance", JFloat session_balance)], 200).

Definition api_withdraw (data : gmap string string) (now : string) : M response :=
  s ← get_session;
  if not_customer s then mret not_authorized
  else
    let amount_str := default "" (data !! "amount") in
    session_balance ← item balance;
    '(valid, result) ← lift (validate_withdrawal amount_str session_balance);
    if negb valid then
      mret (jsonify [("success", JBool false); ("message", json_of_pyval result)], 200)
    else
      amount ← lift (match result with PInt n => Return n | PStr _ => Raise TypeError end);
      session_balance ← item balance;
      new_balance ← lift (sub_int session_balance amount);
      modify_session (set_balance new_balance);;
      session_balance ← item balance;
      transaction ← add_transaction amount session_balance now "withdrawal";
      amount_2f ← lift (format_int_2f amount);
      session_balance ← item balance;
      mret (jsonify [("success", JBool true);
                     ("message", JStr ("Success! " +:+ pound +:+ amount_2f +:+ " withdrawn."));
                     ("balance", JFloat session_balance);
                     ("transaction", json_of_transaction transaction)], 200).

(** [c.isdigit()] for one character: the decimal digits and the
    superscripts one, two and three. *)
Definition char_isdigit (c : ascii) : bool :=
  let n := code c in
  (is_digit c || (n =? 178) || (n =? 179) || (n =? 185))%N.

Fixpoint all_isdigit (s : string) : bool :=
  match s with
  | EmptyString => true
  | String c s' => char_isdigit c && all_isdigit s'
  end.

(** [s.isdigit()]: at least one character, and every one a digit. *)
Definition isdigit (s : string) : bool :=
  match s with
  | EmptyString => false
  | _ => all_isdigit s
  end.

Definition api_change_pin (data : gmap string string) : M response :=
  s ← get_session;
  if not_customer s then mret not_authorized
  else
    let pin_input := default "" (data !! "pin") in
    let step := default 0 (pin_change_step s) in
    if step =? 0 then
      session_pin ← item pin;
      if bool_decide (pin_input = session_pin) then
        modify_session (set_pin_change_step 1);;
        mret (jsonify [("success", JBool true); ("step", JInt 1);
                       ("message", JStr "Current PIN verified. Enter new PIN.")], 200)
      else
        mret (jsonify [("success", JBool false);
                       ("message", JStr "Incorrect current PIN.")], 200)
    else if step =? 1 then
      if (String.length pin_input =? 4)%nat && isdigit pin_input then
        modify_session (set_new_pin pin_input);;
        modify_session (set_pin_change_step 2);;
        mret (jsonify [("success", JBool true); ("step", JInt 2);
                       ("message", JStr "New PIN entered. Please confirm.")], 200)
      else
        mret (jsonify [("success", JBool false);
                       ("message", JStr "PIN must be exactly 4 digits.")], 200)
    else if step =? 2 then
      if bool_decide (Some pin_input = new_pin s) then
        session_new_pin ← item new_pin;
        modify_session (set_pin session_new_pin);;
        modify_session (set_pin_change_step 0);;
        modify_session pop_new_pin;;
        mret (jsonify [("success", JBool true); ("step", JInt 0);
                       ("message", JStr "PIN changed successfully!");
                       ("complete", JBool true)], 200)
      else
        modify_session (set_pin_change_step 1);;
        mret (jsonify [("success", JBool false); ("step", JInt 1);
                       ("message", JStr "PINs do not match. Enter new PIN again.")], 200)
    else
      (* no branch returns: Flask refuses the missing response *)
      lift (Raise TypeError).

Definition api_transactions : M response :=
  s ← get_session;
  if negb (truthy (logged_in s)) then mret not_authorized
  else
    transactions ← load_transactions;
    if truthy (is_admin s) then
      mret (jsonify [("transactions", JList (map (fun tx => JStr (formatted tx)) transactions));
                     ("count", JInt (Z.of_nat (List.length transactions)))], 200)
    else
      mret (jsonify [("transactions", JList (map (fun tx => JStr (formatted tx)) transactions));
                     ("count", JInt (Z.of_nat (List.length transactions)))], 200).

Definition api_logout : M response :=
  modify_session (fun _ => empty_session);;
  mret (jsonify [("success", JBool true);
                 ("message", JStr "Thank you for using Secure Bank ATM!")], 200).

Definition api_reset_pin_change : M response :=
  modify_session (set_pin_change_step 0);;
  modify_session pop_new_pin;;
  mret (jsonify [("success", JBool true)], 200).

(** [TRANSACTION_FILE.unlink()] when the file exists. *)
Definition unlink_file : M unit :=
  fun w => (mkWorld (session w) None, Return tt).

(** [app_debug]: the flag [app.debug], set when the module is run as a
    script. *)
Definition reset_data (app_debug : bool) : M response :=
  if app_debug then
    modify_session (fun _ => empty_session);;
    unlink_file;;
    mret (jsonify [("success", JBool true); ("message", JStr "All data reset")], 200)
  else
    mret (jsonify [("error", JStr "Not available in production")], 403).

(** ** The requests a client can send, and the states they lead to *)

Inductive request :=
  | GetIndex
  | PostLogin (data : gmap string string)
  | GetBalance
  | PostWithdraw (data : gmap string string) (now : string)
  | PostChangePin (data : gmap string string)
  | GetTransactions
  | PostLogout
  | PostResetPinChange
  | PostResetData (app_debug : bool).

Definition handle (r : request) : M response :=
  match r with
  | GetIndex => index
  | PostLogin data => api_login data
  | GetBalance => api_balance
  | PostWithdraw data now => api_withdraw data now
  | PostChangePin data => api_change_pin data
  | GetTransactions => api_transactions
  | PostLogout => api_logout
  | PostResetPinChange => api_reset_pin_change
  | PostResetData app_debug => reset_data app_debug
  end.

(** The world after a request, whether it was answered or raised. *)
Definition after (r : request) (w : world) : world := fst (handle r w).

(** A client starts with an empty session, whatever the ledger file holds. *)
Inductive reachable : world -> Prop :=
  | reachable_new ledger : reachable (mkWorld empty_session ledger)
  | reachable_step w r : reachable w -> reachable (after r w).

Definition run (rs : list request) (w : world) : world :=
  fold_left (fun w r => after r w) rs w.

(** The body of a request with one member. *)
Definition body1 (key value : string) : gmap string string := {[ key := value ]}.

Definition new_client : world := mkWorld empty_session None.

(** ** The messages of a refused withdrawal *)

Definition msg_invalid_number : string := "Please enter a valid number.".
Definition msg_greater_than_zero : string :=
  "Amount must be greater than " +:+ pound +:+ "0.".
Definition msg_whole_number : string :=
  "Please enter a whole number (e.g., 10, 20, 30).".
Definition msg_multiple_of_10 : string :=
  "Please enter an amount in multiples of " +:+ pound +:+ "10.".
Definition msg_insufficient_funds (balance : float) : string :=
  "Insufficient funds. Your balance is " +:+ pound +:+ format_2f balance.

(** The answer that reports a failure with a message. *)
Definition refused (message : string) : response :=
  (jsonify [("success", JBool false); ("message", JStr message)], 200).

(** The answer reports success. *)
Definition is_success (r : response) : bool :=
  match r with
  | (Json (JObj (("success", JBool true) :: _)), 200) => true
  | _ => false
  end.

(** The answer to a withdrawal that went through. *)
Definition withdrawn (amount_2f : string) (new_balance : float) (t : Transaction) : response :=
  (jsonify [("success", JBool true);
            ("message", JStr ("Success! " +:+ pound +:+ amount_2f +:+ " withdrawn."));
            ("balance", JFloat new_balance);
            ("transaction", json_of_transaction t)], 200).

(** What the module keeps about a pending new PIN: it is stored only
    while a PIN change is under way, and always once the change awaits its
    confirmation. *)
Definition pending_consistent (s : Session) : Prop :=
  (is_Some (new_pin s) -> pin_change_step s = Some 1 \/ pin_change_step s = Some 2)
  /\ (pin_change_step s = Some 2 -> is_Some (new_pin s)).

(** The answer to a customer who logged in. *)
Definition customer_welcome (transaction_count : nat) (balance : float) : response :=
  (jsonify [("success", JBool true); ("is_admin", JBool false);
            ("message", JStr "Login successful!");
            ("transaction_count", JInt (Z.of_nat transaction_count));
            ("balance", JFloat balance)], 200).


(** *** The balances a session can hold *)

(** The exact value of a finite float, as a fraction. *)
Definition to_Q (f : float) : option Q :=
  match f with
  | S754_zero _ => Some (inject_Z 0)
  | S754_finite s m e =>
      Some (if 0 <=? e then inject_Z (cond_Zopp s (Zpos m * 2 ^ e))
            else Qmake (cond_Zopp s (Zpos m)) (Z.to_pos (2 ^ (- e))))
  | _ => None
  end.

(** [b], [b - 10.0], ..., down [n] times. *)
Fixpoint countdown (n : nat) (b : float) : list float :=
  b :: match n with
       | O => []
       | S n' => countdown n' (SFsub prec emax b (S754_finite false 5629499534213120 (-49)))
       end.

(** The starting balance less 0, 10, ..., 120: as floats, 123.45 down to
    3.45. *)
Definition possible_balances : list float :=
  Eval vm_compute in countdown 12 STARTING_BALANCE.

Definition balance_possible (s : Session) : Prop :=
  match balance s with
  | Some b => In b possible_balances
  | None => True
  end.

(** *** Sessions used in the examples *)

Definition noon : string := "2024-01-01 12:00:00".

(** A customer who has just logged in with the default PIN. *)
Definition customer_world : world := after (PostLogin (body1 "pin" "1234")) new_client.

(** The same customer after the current PIN was verified (step 1). *)
Definition verified_world : world := after (PostChangePin (body1 "pin" "1234")) customer_world.

(** ...and after "5678" was entered as the new PIN (step 2). *)
Definition confirming_world : world := after (PostChangePin (body1 "pin" "5678")) verified_world.

(** A session logged in with the admin password. *)
Definition admin_world : world := after (PostLogin (body1 "pin" "4321")) new_client.

(** *** What the further properties are stated with *)

(** The ledger a handler sees: what [load_transactions] returns. *)
Definition ledger (w : world) : list Transaction := default [] (file w).

(** The credential of a login or PIN-change request. *)
Definition credential (data : gmap string string) : string := default "" (data !! "pin").

(** The test of [api_change_pin] on a new PIN. *)
Definition valid_pin (p : string) : bool := (String.length p =? 4)%nat && isdigit p.

(** The answer to an admin who logged in. *)
Definition admin_welcome : response :=
  (jsonify [("success", JBool true); ("is_admin", JBool true);
            ("message", JStr "Admin login successful!")], 200).

(** The answer of the transaction history for a ledger. *)
Definition history (transactions : list Transaction) : response :=
  (jsonify [("transactions", JList (map (fun tx => JStr (formatted tx)) transactions));
            ("count", JInt (Z.of_nat (List.length transactions)))], 200).

(** The session after [initialize_session]: stored values kept, the
    missing ones at their defaults. *)
Definition initialized (s : Session) : Session :=
  mkSession (Some (default DEFAULT_PIN (pin s)))
            (Some (default STARTING_BALANCE (balance s)))
            (Some (default false (logged_in s)))
            (Some (default false (is_admin s)))
            (Some (default 0 (pin_change_step s)))
            (new_pin s).

(** What every handler can rely on: a session that is logged in holds its
    PIN and balance, the step of the PIN change is 0, 1 or 2, and the PINs
    stored passed the test for a new PIN. *)
Definition session_sound (s : Session) : Prop :=
  (logged_in s = Some true -> is_Some (pin s) /\ is_Some (balance s))
  /\ (forall k, pin_change_step s = Some k -> k = 0 \/ k = 1 \/ k = 2)
  /\ (forall p, pin s = Some p -> valid_pin p = true)
  /\ (forall p, new_pin s = Some p -> valid_pin p = true).

(** The record of a withdrawal of [a], which is [g] as a float, that
    leaves the balance [new_balance]. *)
Definition withdrawal_record (now : string) (a : Z) (g new_balance : float) : Transaction :=
  {| timestamp := now; type := "withdrawal"; amount := a;
     balance_after := new_balance;
     formatted := now +:+ " | Withdrawal " +:+ pound +:+ format_2f g
                    +:+ " | Balance " +:+ pound +:+ format_2f new_balance |}.

(** The number of withdrawal requests among [rs]. *)
Definition withdraw_requests (rs : list request) : nat :=
  List.length (List.filter (fun r => match r with PostWithdraw _ _ => true | _ => false end) rs).

(** Every character of the string passes [char_isdigit]. *)
Definition digits_only (p : string) : Prop :=
  Forall (fun c => char_isdigit c = true) (list_ascii_of_string p).

(** The customer of [customer_world] after a withdrawal of 50. *)
Definition withdrawn_world : world :=
  after (PostWithdraw (body1 "amount" "50") noon) customer_world.

(** The customer of [customer_world] after changing the PIN to "4321". *)
Definition shadowed_world : world :=
  run [PostChangePin (body1 "pin" "1234"); PostChangePin (body1 "pin" "4321");
       PostChangePin (body1 "pin" "4321")] customer_world.

(** Every character of the string is an ASCII one (below 128). *)
Definition ascii_only (s : string) : Prop :=
  Forall (fun c => (code c < 128)%N) (list_ascii_of_string s).

(** The value of the float is the integer [n]. *)
Definition is_integer (f : float) (n : Z) : Prop := compare_int f n = Some Eq.

(** * Properties *)

Arguments validate_withdrawal : simpl never.
Arguments sub_int : simpl never.
Arguments format_int_2f : simpl never.
Arguments format_2f : simpl never.
Arguments parse : simpl never.
Arguments compare_int : simpl never.
Arguments le_int : simpl never.
Arguments ne_int : simpl never.
Arguments int_gt : simpl never.

(** Runs the state-and-exception plumbing of a handler. *)
Ltac run_M :=
  unfold mbind, M_bind, mret, M_ret, lift, get_session, modify_session, item,
    load_transactions, save_transactions, unlink_file in *.

(** ** Floats against ints *)

Lemma is_integer_to_int (f : float) (n : Z) :
  is_integer f n -> to_int f = Return n.
Proof.
  unfold is_integer, compare_int, to_int.
  destruct f as [s | s | | s m e]; try discriminate; try (now destruct s).
  - intros H. assert (H0 : (0 ?= n) = Eq) by congruence.
    apply Z.compare_eq in H0. now subst.
  - destruct (0 <=? e) eqn:He; intros H0; f_equal;
      [assert (H : (cond_Zopp s (Z.pos m) * 2 ^ e ?= n) = Eq) by congruence
      |assert (H : (cond_Zopp s (Z.pos m) ?= n * 2 ^ (- e)) = Eq) by congruence];
      clear H0; apply Z.compare_eq in H.
    + destruct s; cbn in *; lia.
    + apply Z.leb_gt in He.
      assert (Hp : 0 < 2 ^ (- e)) by (apply Z.pow_pos_nonneg; lia).
      destruct s; cbn [cond_Zopp] in *.
      * assert (Hm : Z.pos m = (- n) * 2 ^ (- e)) by lia.
        rewrite Hm, Z.div_mul by lia. lia.
      * rewrite H, Z.div_mul by lia. reflexivity.
Qed.

Lemma is_integer_unique (f : float) (n n' : Z) :
  is_integer f n -> is_integer f n' -> n = n'.
Proof.
  intros H H'. apply is_integer_to_int in H, H'. congruence.
Qed.

Lemma not_integer_ne_int (f : float) (i : Z) :
  (forall n, ~ is_integer f n) -> ne_int f i = true.
Proof.
  intros H. unfold ne_int. specialize (H i). unfold is_integer in H.
  destruct (compare_int f i) as [[]|]; congruence.
Qed.

Lemma is_integer_ne_int (f : float) (n : Z) : is_integer f n -> ne_int f n = false.
Proof. unfold is_integer, ne_int. now intros ->. Qed.

Lemma is_integer_le_int (f : float) (n k : Z) :
  is_integer f n -> le_int f k = (n <=? k).
Proof.
  unfold is_integer, le_int, compare_int.
  destruct f as [s | s | | s m e]; try discriminate; try (now destruct s).
  - intros H. assert (H0 : (0 ?= n) = Eq) by congruence.
    apply Z.compare_eq in H0. subst n.
    destruct (0 ?= k) eqn:Hk; symmetry;
      [apply Z.leb_le | apply Z.leb_le | apply Z.leb_gt];
      rewrite ?Z.compare_eq_iff, ?Z.compare_lt_iff, ?Z.compare_gt_iff in Hk; lia.
  - destruct (0 <=? e) eqn:He; intros H0;
      [assert (H : (cond_Zopp s (Z.pos m) * 2 ^ e ?= n) = Eq) by congruence
      |assert (H : (cond_Zopp s (Z.pos m) ?= n * 2 ^ (- e)) = Eq) by congruence];
      clear H0; apply Z.compare_eq in H.
    + rewrite H. destruct (n ?= k) eqn:Hk; symmetry;
        [apply Z.leb_le | apply Z.leb_le | apply Z.leb_gt];
        rewrite ?Z.compare_eq_iff, ?Z.compare_lt_iff, ?Z.compare_gt_iff in Hk; lia.
    + apply Z.leb_gt in He.
      assert (Hp : 0 < 2 ^ (- e)) by (apply Z.pow_pos_nonneg; lia).
      rewrite H.
      destruct (n * 2 ^ (- e) ?= k * 2 ^ (- e)) eqn:Hk; symmetry;
        [apply Z.leb_le | apply Z.leb_le | apply Z.leb_gt];
        rewrite ?Z.compare_eq_iff, ?Z.compare_lt_iff, ?Z.compare_gt_iff in Hk; nia.
Qed.

(** ** Validation of a withdrawal *)

Section Validation.

Variables (amount_str : string) (balance : float).

Lemma validate_unparseable :
  parse amount_str = None ->
  validate_withdrawal amount_str balance = Return (false, PStr msg_invalid_number).
Proof. unfold validate_withdrawal, of_str. now intros ->. Qed.

Lemma validate_nan :
  parse amount_str = Some S754_nan ->
  validate_withdrawal amount_str balance = Return (false, PStr msg_invalid_number).
Proof. unfold validate_withdrawal, of_str. now intros ->. Qed.

Lemma validate_infinity :
  parse amount_str = Some (S754_infinity false) ->
  validate_withdrawal amount_str balance = Raise OverflowError.
Proof. unfold validate_withdrawal, of_str. now intros ->. Qed.

Lemma validate_not_positive (f : float) :
  parse amount_str = Some f -> le_int f 0 = true ->
  validate_withdrawal amount_str balance = Return (false, PStr msg_greater_than_zero).
Proof.
  unfold validate_withdrawal, of_str. intros -> Hle. cbn. now rewrite Hle.
Qed.

Lemma validate_not_whole (f : float) :
  parse amount_str = Some f -> is_finite f = true -> le_int f 0 = false ->
  (forall n, ~ is_integer f n) ->
  validate_withdrawal amount_str balance = Return (false, PStr msg_whole_number).
Proof.
  unfold validate_withdrawal, of_str. intros -> Hfin Hle Hni. cbn. rewrite Hle.
  destruct f as [s | s | | s m e]; try discriminate; cbn.
  now rewrite not_integer_ne_int.
Qed.

(** Once the float is known to be the integer [n], the remaining checks
    are those on [n]. *)
Lemma validate_integer (f : float) (n : Z) :
  parse amount_str = Some f -> is_integer f n -> 0 < n ->
  validate_withdrawal amount_str balance =
    if negb (n mod 10 =? 0) then Return (false, PStr msg_multiple_of_10)
    else if int_gt n balance then Return (false, PStr (msg_insufficient_funds balance))
    else Return (true, PInt n).
Proof.
  unfold validate_withdrawal, of_str. intros -> Hn Hpos. cbn.
  rewrite (is_integer_le_int f n 0 Hn).
  replace (n <=? 0) with false by (symmetry; apply Z.leb_gt; lia).
  rewrite (is_integer_to_int f n Hn). cbn.
  rewrite (is_integer_ne_int f n Hn).
  destruct (negb (n mod 10 =? 0)); [reflexivity|].
  destruct (int_gt n balance); reflexivity.
Qed.

End Validation.

(** C2, amended.  For every amount string that [float] does not read as
    plus infinity, validation applies its checks in a fixed order and the
    first failure wins: a string that is not a number, or that reads as a
    NaN, fails as an invalid number; a value that is at most 0 fails as
    not greater than zero; a positive value that is no integer fails as
    not a whole number; an integer that is no multiple of 10 fails as
    such; a multiple of 10 above the balance fails as insufficient funds,
    with the balance formatted to 2 decimals in the message. *)
Theorem validate_withdrawal_order (amount_str : string) (balance : float) :
  parse amount_str <> Some (S754_infinity false) ->
  match parse amount_str with
  | None =>
      validate_withdrawal amount_str balance = Return (false, PStr msg_invalid_number)
  | Some f =>
      (is_nan f = true ->
       validate_withdrawal amount_str balance = Return (false, PStr msg_invalid_number))
      /\ (le_int f 0 = true ->
          validate_withdrawal amount_str balance = Return (false, PStr msg_greater_than_zero))
      /\ (is_nan f = false -> le_int f 0 = false -> (forall n, ~ is_integer f n) ->
          validate_withdrawal amount_str balance = Return (false, PStr msg_whole_number))
      /\ (forall n, is_integer f n -> 0 < n -> n mod 10 <> 0 ->
          validate_withdrawal amount_str balance = Return (false, PStr msg_multiple_of_10))
      /\ (forall n, is_integer f n -> 0 < n -> n mod 10 = 0 -> int_gt n balance = true ->
          validate_withdrawal amount_str balance =
            Return (false, PStr (msg_insufficient_funds balance)))
  end.
Proof.
  intros Hinf. destruct (parse amount_str) as [f|] eqn:Hp.
  - repeat split.
    + intros Hnan. destruct f; try discriminate. now apply validate_nan.
    + now apply validate_not_positive.
    + intros Hnan Hle Hni. apply (validate_not_whole _ _ f); try assumption.
      destruct f as [s | [] | | s m e]; try reflexivity; try discriminate.
      now contradiction Hinf.
    + intros n Hn Hpos Hmod. rewrite (validate_integer _ _ f n Hp Hn Hpos).
      destruct (Z.eqb_spec (n mod 10) 0); [contradiction | reflexivity].
    + intros n Hn Hpos Hmod Hgt. rewrite (validate_integer _ _ f n Hp Hn Hpos).
      rewrite Hmod, Hgt. reflexivity.
  - now apply validate_unparseable.
Qed.


Lemma validate_accepts_only (amount_str : string) (balance : float) (v : pyval) :
  validate_withdrawal amount_str balance = Return (true, v) ->
  exists f n, v = PInt n /\ parse amount_str = Some f /\ is_integer f n
              /\ 0 < n /\ n mod 10 = 0 /\ int_gt n balance = false.
Proof.
  unfold validate_withdrawal, of_str.
  destruct (parse amount_str) as [f|]; cbn; [|discriminate].
  destruct (le_int f 0) eqn:Hle; cbn; [discriminate|].
  destruct (to_int f) as [i|e] eqn:Hi; cbn; [|destruct e; discriminate].
  destruct (ne_int f i) eqn:Hne; cbn; [discriminate|].
  assert (Hint : is_integer f i).
  { unfold is_integer. unfold ne_int in Hne.
    destruct (compare_int f i) as [[]|]; congruence. }
  destruct (Z.eqb_spec (i mod 10) 0) as [Hmod|]; cbn; [|discriminate].
  destruct (int_gt i balance) eqn:Hgt; cbn; [discriminate|].
  intros [= <-]. exists f, i. repeat split; try assumption.
  rewrite (is_integer_le_int f i 0 Hint) in Hle. now apply Z.leb_gt in Hle.
Qed.

(** ** Withdrawals *)

Section Withdraw.

Variables (data : gmap string string) (now : string) (w : world) (b : float).
Hypothesis Hcustomer : not_customer (session w) = false.
Hypothesis Hbalance : balance (session w) = Some b.

Let amount_str : string := default "" (data !! "amount").

Lemma withdraw_raised (e : exn) :
  validate_withdrawal amount_str b = Raise e ->
  api_withdraw data now w = (w, Raise e).
Proof.
  intros Hv. unfold api_withdraw. run_M. cbn. rewrite Hcustomer, Hbalance.
  fold amount_str. rewrite Hv. reflexivity.
Qed.

Lemma withdraw_refused (v : pyval) :
  validate_withdrawal amount_str b = Return (false, v) ->
  api_withdraw data now w =
    (w, Return (jsonify [("success", JBool false); ("message", json_of_pyval v)], 200)).
Proof.
  intros Hv. unfold api_withdraw. run_M. cbn. rewrite Hcustomer, Hbalance.
  fold amount_str. rewrite Hv. reflexivity.
Qed.

Lemma withdraw_accepted (a : Z) (g : float) :
  validate_withdrawal amount_str b = Return (true, PInt a) ->
  of_int a = Return g ->
  let new_balance := SFsub prec emax b g in
  let t := {| timestamp := now; type := "withdrawal"; amount := a;
              balance_after := new_balance;
              formatted := now +:+ " | Withdrawal " +:+ pound +:+ format_2f g
                             +:+ " | Balance " +:+ pound +:+ format_2f new_balance |} in
  api_withdraw data now w =
    (mkWorld (set_balance new_balance (session w)) (Some (default [] (file w) ++ [t])%list),
     Return (withdrawn (format_2f g) new_balance t)).
Proof.
  intros Hv Hg. unfold api_withdraw, add_transaction. run_M. cbn.
  rewrite Hcustomer, Hbalance. fold amount_str. rewrite Hv. cbn.
  rewrite Hbalance. unfold sub_int, format_int_2f. rewrite Hg. cbn. reflexivity.
Qed.

End Withdraw.

Lemma validate_raises_only_on_infinity (amount_str : string) (balance : float) (e : exn) :
  validate_withdrawal amount_str balance = Raise e ->
  parse amount_str = Some (S754_infinity false) /\ e = OverflowError.
Proof.
  unfold validate_withdrawal, of_str.
  destruct (parse amount_str) as [f|]; cbn; [|discriminate].
  destruct (le_int f 0) eqn:Hle; cbn; [discriminate|].
  destruct (to_int f) as [i|e'] eqn:Hi; cbn.
  - destruct (ne_int f i); [discriminate|].
    destruct (negb (i mod 10 =? 0)); [discriminate|].
    destruct (int_gt i balance); discriminate.
  - destruct f as [s | [] | | s m e'']; try discriminate;
      injection Hi as <-; cbn; try discriminate.
    intros [= <-]. split; reflexivity.
Qed.

Lemma validate_refusal_is_message (amount_str : string) (balance : float) (v : pyval) :
  validate_withdrawal amount_str balance = Return (false, v) ->
  exists message, v = PStr message.
Proof.
  unfold validate_withdrawal, of_str.
  destruct (parse amount_str) as [f|]; cbn; [|intros [= <-]; eauto].
  destruct (le_int f 0); cbn; [intros [= <-]; eauto|].
  destruct (to_int f) as [i|[]]; cbn; try discriminate; [|intros [= <-]; eauto].
  destruct (ne_int f i); [intros [= <-]; eauto|].
  destruct (negb (i mod 10 =? 0)); [intros [= <-]; eauto|].
  destruct (int_gt i balance); [intros [= <-]; eauto|discriminate].
Qed.

(** Every amount that is not read as plus infinity and is not a positive
    integer multiple of 10 within the balance is refused with a message,
    and neither the session nor the ledger file changes. *)
Lemma withdraw_rejected_unchanged
    (data : gmap string string) (now : string) (w : world) (b : float) :
  not_customer (session w) = false -> balance (session w) = Some b ->
  let amount_str := default "" (data !! "amount") in
  parse amount_str <> Some (S754_infinity false) ->
  ~ (exists f n, parse amount_str = Some f /\ is_integer f n
                 /\ 0 < n /\ n mod 10 = 0 /\ int_gt n b = false) ->
  exists message, api_withdraw data now w = (w, Return (refused message)).
Proof.
  intros Hc Hb amount_str Hinf Hbad.
  destruct (validate_withdrawal amount_str b) as [[[] v]|e] eqn:Hv.
  - exfalso. apply Hbad.
    destruct (validate_accepts_only _ _ _ Hv) as (f & n & _ & H). eauto.
  - destruct (validate_refusal_is_message _ _ _ Hv) as [message ->].
    exists message. now rewrite (withdraw_refused data now w b Hc Hb _ Hv).
  - exfalso. apply Hinf. now apply (validate_raises_only_on_infinity _ _ _ Hv).
Qed.

(** C1.  For every successful withdrawal of amount [a] from a logged-in
    customer session with balance [b]: the new balance is [b - a] (the
    float subtraction of the module), no other key of the session changes,
    exactly one record is appended to the ledger, it carries the amount
    and the new balance, and the answer returns the new balance and that
    record. *)
Theorem withdraw_success_effect
    (data : gmap string string) (now : string) (w w' : world) (b : float) (r : response) :
  not_customer (session w) = false ->
  balance (session w) = Some b ->
  api_withdraw data now w = (w', Return r) ->
  is_success r = true ->
  exists (a : Z) (new_balance : float) (t : Transaction),
    validate_withdrawal (default "" (data !! "amount")) b = Return (true, PInt a)
    /\ sub_int b a = Return new_balance
    /\ session w' = set_balance new_balance (session w)
    /\ file w' = Some (default [] (file w) ++ [t])%list
    /\ amount t = a /\ balance_after t = new_balance
    /\ timestamp t = now /\ type t = "withdrawal"
    /\ exists amount_2f, r = withdrawn amount_2f new_balance t.
Proof.
  intros Hc Hb Hrun Hok.
  destruct (validate_withdrawal (default "" (data !! "amount")) b)
    as [[[] v]|e] eqn:Hv.
  - destruct (validate_accepts_only _ _ _ Hv) as (f & a & -> & _).
    destruct (of_int a) as [g|e] eqn:Hg.
    + rewrite (withdraw_accepted data now w b Hc Hb a g Hv Hg) in Hrun.
      injection Hrun as <- <-.
      eexists a, _, _. split; [reflexivity|].
      split; [unfold sub_int; rewrite Hg; reflexivity|].
      cbn. repeat split. eexists. reflexivity.
    + exfalso. revert Hrun. unfold api_withdraw. run_M. cbn.
      rewrite Hc, Hb, Hv. cbn. rewrite Hb. unfold sub_int. rewrite Hg. cbn.
      discriminate.
  - rewrite (withdraw_refused data now w b Hc Hb v Hv) in Hrun.
    injection Hrun as <- <-. discriminate.
  - rewrite (withdraw_raised data now w b Hc Hb e Hv) in Hrun. discriminate.
Qed.

(** C7.  In every session in which [is_admin] is true, the balance query
    and the withdrawal are answered with "Not authorized" and status 401,
    and leave the session, so its balance, and the ledger file as they
    were. *)
Theorem admin_not_authorized (data : gmap string string) (now : string) (w : world) :
  is_admin (session w) = Some true ->
  api_balance w = (w, Return not_authorized)
  /\ api_withdraw data now w = (w, Return not_authorized).
Proof.
  intros Ha. unfold api_balance, api_withdraw, not_customer. run_M. cbn.
  rewrite Ha. cbn. rewrite orb_true_r. split; reflexivity.
Qed.

(** Logging in with the admin password makes the session an admin one. *)
Lemma admin_login_is_admin (data : gmap string string) (w : world) :
  default "" (data !! "pin") = ADMIN_PASSWORD ->
  is_admin (session (after (PostLogin data) w)) = Some true.
Proof.
  intros Hp. unfold after, handle, api_login, initialize_session. run_M. cbn.
  rewrite Hp. cbn. reflexivity.
Qed.

(** ** Login *)

(** C8.  A login attempt whose credential is neither the admin password
    nor the PIN of the session (the default PIN when none is stored yet)
    fails with one fixed message, whichever of the two it missed; what
    [logged_in] and [is_admin] hold stays as it was: a stored value is
    kept, and a key that was absent is created false, which is what its
    absence meant. *)
Theorem login_rejected_generic (data : gmap string string) (w : world) :
  default "" (data !! "pin") <> ADMIN_PASSWORD ->
  default "" (data !! "pin") <> default DEFAULT_PIN (pin (session w)) ->
  exists w',
    api_login data w = (w', Return (refused login_failed_message))
    /\ truthy (logged_in (session w')) = truthy (logged_in (session w))
    /\ truthy (is_admin (session w')) = truthy (is_admin (session w))
    /\ (forall v, logged_in (session w) = Some v -> logged_in (session w') = Some v)
    /\ (forall v, is_admin (session w) = Some v -> is_admin (session w') = Some v)
    /\ file w' = file w.
Proof.
  unfold api_login. generalize (default "" (data !! "pin")). intros c Hadmin Hpin.
  destruct w as [[p bal li ia st np] f]. cbn in Hpin.
  unfold initialize_session. run_M. cbn.
  rewrite (bool_decide_eq_false_2 _ Hadmin).
  destruct p as [p|], bal, li, ia, st; cbn in *;
    rewrite (bool_decide_eq_false_2 _ Hpin);
    eexists; (split; [reflexivity|]); cbn; repeat split; intros; congruence.
Qed.

(** ** The PIN change *)

Section ChangePin.

Variables (data : gmap string string) (w : world).
Hypothesis Hcustomer : not_customer (session w) = false.

Let pin_input : string := default "" (data !! "pin").

Lemma change_pin_confirmed :
  pin_change_step (session w) = Some 2 ->
  new_pin (session w) = Some pin_input ->
  api_change_pin data w =
    (mkWorld (pop_new_pin (set_pin_change_step 0 (set_pin pin_input (session w)))) (file w),
     Return (jsonify [("success", JBool true); ("step", JInt 0);
                      ("message", JStr "PIN changed successfully!");
                      ("complete", JBool true)], 200)).
Proof.
  intros Hstep Hnew. unfold api_change_pin. run_M. cbn.
  rewrite Hcustomer, Hstep. cbn. fold pin_input. rewrite Hnew.
  rewrite bool_decide_eq_true_2 by reflexivity. cbn. rewrite Hnew. reflexivity.
Qed.

Lemma change_pin_mismatch :
  pin_change_step (session w) = Some 2 ->
  Some pin_input <> new_pin (session w) ->
  api_change_pin data w =
    (mkWorld (set_pin_change_step 1 (session w)) (file w),
     Return (jsonify [("success", JBool false); ("step", JInt 1);
                      ("message", JStr "PINs do not match. Enter new PIN again.")], 200)).
Proof.
  intros Hstep Hne. unfold api_change_pin. run_M. cbn.
  rewrite Hcustomer, Hstep. cbn. fold pin_input.
  rewrite (bool_decide_eq_false_2 _ Hne). reflexivity.
Qed.

End ChangePin.


(** C3, amended.  When the PIN change awaits its confirmation (step 2) and
    the submitted PIN differs from the pending one, the operation fails
    with "PINs do not match", the step goes back to 1, and the pending new
    PIN stays stored as it was, together with every other key. *)
Theorem change_pin_mismatch_back_to_step_1 (data : gmap string string) (w : world) :
  not_customer (session w) = false ->
  pin_change_step (session w) = Some 2 ->
  Some (default "" (data !! "pin")) <> new_pin (session w) ->
  exists w',
    api_change_pin data w =
      (w', Return (jsonify [("success", JBool false); ("step", JInt 1);
                            ("message", JStr "PINs do not match. Enter new PIN again.")], 200))
    /\ pin_change_step (session w') = Some 1
    /\ new_pin (session w') = new_pin (session w)
    /\ pin (session w') = pin (session w)
    /\ balance (session w') = balance (session w)
    /\ file w' = file w.
Proof.
  intros Hc Hstep Hne. eexists. split.
  - apply (change_pin_mismatch data w Hc Hstep Hne).
  - cbn. repeat split.
Qed.

(** A withdrawal touches no key of the session but the balance. *)
Lemma withdraw_frame (data : gmap string string) (now : string) (w : world) :
  let s' := session (fst (api_withdraw data now w)) in
  pin s' = pin (session w)
  /\ logged_in s' = logged_in (session w)
  /\ is_admin s' = is_admin (session w)
  /\ pin_change_step s' = pin_change_step (session w)
  /\ new_pin s' = new_pin (session w).
Proof.
  unfold api_withdraw. run_M. cbn.
  destruct (not_customer (session w)); cbn; [repeat split|].
  destruct (balance (session w)) as [b|] eqn:Hb; cbn; [|repeat split].
  destruct (validate_withdrawal _ b) as [[[] v]|e]; cbn; [|repeat split..].
  destruct v as [message|a]; cbn; [repeat split|].
  rewrite Hb. destruct (sub_int b a) as [new_balance|e]; cbn; [|repeat split].
  unfold add_transaction. run_M. cbn.
  destruct (format_int_2f a); cbn; repeat split.
Qed.




(** C9.  The reset operation, in any session state whatsoever (at any
    step, logged in or not), sets [pin_change_step] to 0, removes
    [new_pin], leaves every other key and the ledger file as they were,
    and answers [success: true]. *)
Theorem reset_pin_change_forces_idle (w : world) :
  exists w',
    api_reset_pin_change w = (w', Return (jsonify [("success", JBool true)], 200))
    /\ pin_change_step (session w') = Some 0
    /\ new_pin (session w') = None
    /\ pin (session w') = pin (session w)
    /\ balance (session w') = balance (session w)
    /\ logged_in (session w') = logged_in (session w)
    /\ is_admin (session w') = is_admin (session w)
    /\ file w' = file w.
Proof.
  eexists. split.
  - unfold api_reset_pin_change. run_M. cbn. reflexivity.
  - cbn. repeat split.
Qed.

(** ** Reachable sessions *)

Lemma pending_consistent_empty : pending_consistent empty_session.
Proof. split; cbn; [intros [? ?]|]; discriminate. Qed.

(** Closes the two halves of [pending_consistent] after a handler ran,
    from the two halves [H1] and [H2] that held before. *)
Ltac pending_finish H1 H2 :=
  split;
  [ let Hs := fresh "Hs" in
    intros Hs;
    first [ now left | now right
          | now (destruct Hs as [? Hs])
          | now apply H1
          | now (destruct (H1 Hs) as [Hs'|Hs']) ]
  | let Hs := fresh "Hs" in
    intros Hs;
    first [ discriminate Hs | now eexists | now apply H2 ] ].

Lemma pending_consistent_step (r : request) (w : world) :
  pending_consistent (session w) -> pending_consistent (session (after r w)).
Proof.
  unfold pending_consistent, after. destruct r; cbn [handle].
  - (* index *)
    destruct w as [[p bal li ia st np] f]. cbn.
    unfold index, initialize_session. run_M. cbn. intros [H1 H2].
    destruct p, bal, li, ia, st; cbn in *; pending_finish H1 H2.
  - (* login *)
    destruct w as [[p bal li ia st np] f]. cbn.
    unfold api_login, initialize_session. run_M. cbn. intros [H1 H2].
    destruct p, bal, li, ia, st; cbn in *; repeat (case_bool_decide; cbn);
      pending_finish H1 H2.
  - (* balance *)
    unfold api_balance. run_M. cbn.
    destruct (not_customer (session w)); cbn; [auto|].
    destruct (balance (session w)); cbn; auto.
  - (* withdraw *)
    destruct (withdraw_frame data now w) as (_ & _ & _ & -> & ->). auto.
  - (* change PIN *)
    destruct w as [[p bal li ia st np] f]. cbn.
    unfold api_change_pin. run_M. cbn. intros [H1 H2].
    destruct (not_customer _); cbn; [auto|].
    destruct (default 0 st =? 0) eqn:E0; cbn.
    { destruct p; cbn; [|auto]. case_bool_decide; cbn; [|auto].
      destruct st; cbn in *; [apply Z.eqb_eq in E0; subst|];
        pending_finish H1 H2. }
    destruct (default 0 st =? 1) eqn:E1; cbn.
    { destruct (_ && _); cbn; [|auto]. pending_finish H1 H2. }
    destruct (default 0 st =? 2) eqn:E2; cbn; [|auto].
    case_bool_decide; cbn.
    + destruct np; cbn; [pending_finish H1 H2 | discriminate].
    + pending_finish H1 H2.
  - (* transactions *)
    unfold api_transactions. run_M. cbn.
    destruct (negb _); cbn; [auto|]. destruct (truthy _); cbn; auto.
  - (* logout *)
    intros _. apply pending_consistent_empty.
  - (* reset of the PIN change *)
    intros _. cbn. split; [intros [? ?]|]; discriminate.
  - (* reset of all data *)
    destruct app_debug; cbn; [intros _; apply pending_consistent_empty | auto].
Qed.

(** C4, amended.  In every session state reachable by any sequence of
    requests, a pending new PIN is stored only when [pin_change_step] is 1
    or 2 (never when it is 0 or unset), and it is stored whenever
    [pin_change_step] is 2. *)
Theorem reachable_pending_consistent (w : world) :
  reachable w -> pending_consistent (session w).
Proof.
  induction 1 as [ledger | w r _ IH].
  - apply pending_consistent_empty.
  - now apply pending_consistent_step.
Qed.

Lemma reachable_run (rs : list request) (w : world) :
  reachable w -> reachable (run rs w).
Proof.
  revert w. induction rs as [|r rs IH]; intros w Hw; cbn; [assumption|].
  apply IH. now constructor.
Qed.

(** ** The balances of reachable sessions *)

Lemma int_gt_false_bound (m : positive) (e a : Z) :
  e < 0 -> int_gt a (S754_finite false m e) = false -> a * 2 ^ (- e) <= Z.pos m.
Proof.
  intros He. unfold int_gt, compare_int. cbn [cond_Zopp].
  rewrite (proj2 (Z.leb_gt 0 e) He).
  destruct (Z.compare_spec (Z.pos m) (a * 2 ^ (- e))); try discriminate; lia.
Qed.

(** From any possible balance, every amount that validation lets through
    converts to a float, leads to a possible balance again, and is
    subtracted without rounding; the balance does not become negative. *)
Lemma possible_balances_closed (b : float) (a : Z) :
  In b possible_balances -> 0 < a -> a mod 10 = 0 -> int_gt a b = false ->
  exists new_balance qb qn,
    sub_int b a = Return new_balance
    /\ In new_balance possible_balances
    /\ to_Q b = Some qb /\ to_Q new_balance = Some qn
    /\ Qeq qn (Qminus qb (inject_Z a)) /\ Qle (inject_Z 0) qn.
Proof.
  intros Hin Hpos Hmod Hgt.
  assert (Ha : a <= 123).
  { unfold possible_balances in Hin. cbn [In] in Hin.
    repeat (destruct Hin as [<-|Hin]; [|]); try contradiction;
      apply int_gt_false_bound in Hgt; try lia;
      match type of Hgt with
      | _ * 2 ^ ?k <= _ =>
          let p := eval vm_compute in (2 ^ k) in change (2 ^ k) with p in Hgt
      end; lia. }
  assert (Hcases : a = 10 \/ a = 20 \/ a = 30 \/ a = 40 \/ a = 50 \/ a = 60 \/ a = 70
                   \/ a = 80 \/ a = 90 \/ a = 100 \/ a = 110 \/ a = 120)
    by (Z.to_euclidean_division_equations; lia).
  clear Hpos Hmod Ha.
  unfold possible_balances in Hin. cbn [In] in Hin.
  repeat (destruct Hin as [<-|Hin]; [|]); try contradiction;
    repeat (destruct Hcases as [->|Hcases]; [|]); subst;
    try (exfalso; vm_compute in Hgt; discriminate Hgt);
    (eexists _, _, _; split; [vm_compute; reflexivity|];
     split; [vm_compute; tauto|];
     split; [vm_compute; reflexivity|];
     split; [vm_compute; reflexivity|];
     split; vm_compute; [reflexivity | discriminate]).
Qed.

(** What a withdrawal can do to the balance: nothing, or what an accepted
    amount takes off. *)
Lemma withdraw_balance (data : gmap string string) (now : string) (w : world) :
  balance (session (after (PostWithdraw data now) w)) = balance (session w)
  \/ exists b a new_balance,
       balance (session w) = Some b
       /\ validate_withdrawal (default "" (data !! "amount")) b = Return (true, PInt a)
       /\ sub_int b a = Return new_balance
       /\ balance (session (after (PostWithdraw data now) w)) = Some new_balance.
Proof.
  unfold after. cbn [handle]. unfold api_withdraw. run_M. cbn.
  destruct (not_customer (session w)); cbn; [now left|].
  destruct (balance (session w)) as [b|] eqn:Hb; cbn; [|now left].
  destruct (validate_withdrawal _ b) as [[[] v]|e] eqn:Hv; cbn; [|now left..].
  destruct v as [message|a]; cbn; [now left|].
  rewrite Hb. destruct (sub_int b a) as [new_balance|e] eqn:Hs; cbn; [|now left].
  right. exists b, a, new_balance. repeat split; try assumption.
  unfold add_transaction. run_M. cbn. destruct (format_int_2f a); reflexivity.
Qed.

(** The queries leave the world as it is. *)
Lemma balance_query_frame (w : world) : after GetBalance w = w.
Proof.
  unfold after. cbn [handle]. unfold api_balance. run_M. cbn.
  destruct (not_customer (session w)); cbn; [reflexivity|].
  destruct (balance (session w)); reflexivity.
Qed.

Lemma transactions_query_frame (w : world) : after GetTransactions w = w.
Proof.
  unfold after. cbn [handle]. unfold api_transactions. run_M. cbn.
  destruct (negb _); cbn; [reflexivity|]. destruct (truthy _); reflexivity.
Qed.

(** A PIN change leaves the balance and the ledger file as they are. *)
Lemma change_pin_frame (data : gmap string string) (w : world) :
  balance (session (after (PostChangePin data) w)) = balance (session w)
  /\ file (after (PostChangePin data) w) = file w.
Proof.
  destruct w as [[p bal li ia st np] f].
  unfold after. cbn [handle]. unfold api_change_pin. run_M. cbn.
  destruct (not_customer _); cbn; [now split|].
  destruct (default 0 st =? 0); cbn.
  { destruct p; cbn; [|now split]. case_bool_decide; now split. }
  destruct (default 0 st =? 1); cbn.
  { destruct (_ && _); now split. }
  destruct (default 0 st =? 2); cbn; [|now split].
  case_bool_decide; cbn; [|now split]. destruct np; now split.
Qed.

(** A login leaves a stored balance as it is and stores the starting
    balance when there was none. *)
Lemma initialize_balance (r : request) (w : world) :
  (r = GetIndex \/ exists data, r = PostLogin data) ->
  balance (session (after r w)) = Some (default STARTING_BALANCE (balance (session w))).
Proof.
  destruct w as [[p bal li ia st np] f].
  intros [-> | [data ->]]; unfold after; cbn [handle].
  - unfold index, initialize_session. run_M. cbn.
    destruct p, bal, li, ia, st; reflexivity.
  - unfold api_login, initialize_session. run_M. cbn.
    destruct p, bal, li, ia, st; cbn; repeat (case_bool_decide; cbn); reflexivity.
Qed.

Lemma balance_possible_step (r : request) (w : world) :
  balance_possible (session w) -> balance_possible (session (after r w)).
Proof.
  assert (Hstart : In STARTING_BALANCE possible_balances) by (vm_compute; tauto).
  assert (Hinit : forall r', (r' = GetIndex \/ exists data, r' = PostLogin data) ->
            balance_possible (session w) -> balance_possible (session (after r' w))).
  { intros r' Hr'. unfold balance_possible. rewrite (initialize_balance r' w Hr').
    destruct (balance (session w)); auto. }
  destruct r.
  - apply Hinit. now left.
  - apply Hinit. right. now exists data.
  - now rewrite balance_query_frame.
  - unfold balance_possible.
    destruct (withdraw_balance data now w) as [->|(b & a & nb & Hb & Hv & Hs & ->)];
      [auto|].
    rewrite Hb. intros Hin.
    destruct (validate_accepts_only _ _ _ Hv) as (f & n & [= <-] & _ & _ & Hpos & Hmod & Hgt).
    destruct (possible_balances_closed b a Hin Hpos Hmod Hgt) as (nb' & _ & _ & Hs' & Hin' & _).
    congruence.
  - unfold balance_possible. now rewrite (proj1 (change_pin_frame data w)).
  - now rewrite transactions_query_frame.
  - intros _. exact I.
  - auto.
  - destruct app_debug; [intros _; exact I | auto].
Qed.

Lemma reachable_balance_possible (w : world) :
  reachable w -> balance_possible (session w).
Proof.
  induction 1 as [ledger | w r _ IH]; [exact I|]. now apply balance_possible_step.
Qed.

(** In a reachable customer session, an amount that [float] reads as a
    positive integer multiple of 10 within the balance is withdrawn: the
    request is answered with success, the new balance is exactly the old
    one less the amount, and one record is appended to the ledger. *)
Lemma reachable_withdraw_succeeds
    (data : gmap string string) (now : string) (w : world) (b f : float) (n : Z) :
  reachable w ->
  not_customer (session w) = false -> balance (session w) = Some b ->
  parse (default "" (data !! "amount")) = Some f ->
  is_integer f n -> 0 < n -> n mod 10 = 0 -> int_gt n b = false ->
  exists new_balance t amount_2f qb qn,
    api_withdraw data now w =
      (mkWorld (set_balance new_balance (session w)) (Some (default [] (file w) ++ [t])%list),
       Return (withdrawn amount_2f new_balance t))
    /\ amount t = n /\ balance_after t = new_balance
    /\ to_Q b = Some qb /\ to_Q new_balance = Some qn
    /\ Qeq qn (Qminus qb (inject_Z n)) /\ Qle (inject_Z 0) qn.
Proof.
  intros Hw Hc Hb Hp Hn Hpos Hmod Hgt.
  pose proof (reachable_balance_possible w Hw) as Hin.
  unfold balance_possible in Hin. rewrite Hb in Hin.
  destruct (possible_balances_closed b n Hin Hpos Hmod Hgt)
    as (nb & qb & qn & Hs & _ & Hqb & Hqn & Hex & Hnn).
  pose proof (validate_integer _ b f n Hp Hn Hpos) as Hv.
  rewrite Hmod, Hgt in Hv. cbn in Hv.
  unfold sub_int in Hs. destruct (of_int n) as [g|e] eqn:Hg; [|discriminate].
  cbn in Hs. injection Hs as <-.
  eexists _, _, _, qb, qn. split.
  - apply (withdraw_accepted data now w b Hc Hb n g Hv Hg).
  - cbn. repeat split; assumption.
Qed.

(** ** The properties at work on concrete sessions *)

Example parse_starting_balance : parse "123.45" = Some STARTING_BALANCE.
Proof. vm_compute. reflexivity. Qed.

Example format_starting_balance : format_2f STARTING_BALANCE = "123.45".
Proof. vm_compute. reflexivity. Qed.

(** A new PIN of three digits is refused and the step stays 1. *)
Example change_pin_three_digits :
  api_change_pin (body1 "pin" "567") verified_world =
    (verified_world, Return (refused "PIN must be exactly 4 digits.")).
Proof. vm_compute. reflexivity. Qed.

(** After the PIN was changed to "5678", the old PIN no longer logs in. *)
Example login_after_pin_change :
  let w := after (PostChangePin (body1 "pin" "5678")) confirming_world in
  snd (api_login (body1 "pin" "1234") w) = Return (refused login_failed_message).
Proof. vm_compute. reflexivity. Qed.

(** A logout clears the session, and with it a changed PIN: the next
    session starts from the default PIN again. *)
Example logout_forgets_pin :
  pin (session (after PostLogout
                  (after (PostChangePin (body1 "pin" "5678")) confirming_world))) = None.
Proof. vm_compute. reflexivity. Qed.

(** With a balance of 120, withdrawing "50" leaves 70 and a ledger of one
    record. *)
Example withdraw_from_120 :
  let w := mkWorld (set_balance (S754_finite false 8444249301319680 (-46))
                      (session customer_world)) None in
  let w' := after (PostWithdraw (body1 "amount" "50") noon) w in
  format_2f <$> balance (session w') = Some "70.00"
  /\ List.length (default [] (file w')) = 1%nat.
Proof. split; vm_compute; reflexivity. Qed.

Lemma reachable_customer_world : reachable customer_world.
Proof. apply reachable_step, reachable_new. Qed.

Lemma reachable_verified_world : reachable verified_world.
Proof. apply reachable_step, reachable_customer_world. Qed.

Lemma reachable_confirming_world : reachable confirming_world.
Proof. apply reachable_step, reachable_verified_world. Qed.

Lemma withdraw_success_effect_witness :
  exists w' r,
    api_withdraw (body1 "amount" "50") noon customer_world = (w', Return r)
    /\ balance (session w') = Some (S754_finite false 5168584259849421 (-46))
    /\ exists a new_balance t,
         validate_withdrawal "50" STARTING_BALANCE = Return (true, PInt a)
         /\ sub_int STARTING_BALANCE a = Return new_balance
         /\ session w' = set_balance new_balance (session customer_world)
         /\ file w' = Some [t]
         /\ amount t = a /\ balance_after t = new_balance
         /\ timestamp t = noon /\ type t = "withdrawal"
         /\ exists amount_2f, r = withdrawn amount_2f new_balance t.
Proof.
  eexists _, _. split; [vm_compute; reflexivity|].
  split; [reflexivity|].
  eapply (withdraw_success_effect (body1 "amount" "50") noon customer_world);
    vm_compute; reflexivity.
Defined.

Lemma validate_withdrawal_order_witness :
  validate_withdrawal "ten" STARTING_BALANCE = Return (false, PStr msg_invalid_number)
  /\ validate_withdrawal "-2.5" STARTING_BALANCE = Return (false, PStr msg_greater_than_zero)
  /\ validate_withdrawal "1005" STARTING_BALANCE = Return (false, PStr msg_multiple_of_10)
  /\ validate_withdrawal "130" STARTING_BALANCE
     = Return (false, PStr ("Insufficient funds. Your balance is " +:+ pound +:+ "123.45")).
Proof.
  assert (Hinf : forall s f, parse s = f -> f <> Some (S754_infinity false) ->
                             parse s <> Some (S754_infinity false)) by now intros s f ->.
  split; [|split; [|split]].
  - assert (Hp : parse "ten" = None) by (vm_compute; reflexivity).
    pose proof (validate_withdrawal_order "ten" STARTING_BALANCE
                  (Hinf _ _ Hp ltac:(discriminate))) as H.
    rewrite Hp in H. exact H.
  - assert (Hp : parse "-2.5" = Some (S754_finite true 5629499534213120 (-51)))
      by (vm_compute; reflexivity).
    pose proof (validate_withdrawal_order "-2.5" STARTING_BALANCE
                  (Hinf _ _ Hp ltac:(discriminate))) as H.
    rewrite Hp in H. destruct H as (_ & H & _). apply H. vm_compute. reflexivity.
  - assert (Hp : parse "1005" = Some (S754_finite false 8840073487319040 (-43)))
      by (vm_compute; reflexivity).
    pose proof (validate_withdrawal_order "1005" STARTING_BALANCE
                  (Hinf _ _ Hp ltac:(discriminate))) as H.
    rewrite Hp in H. destruct H as (_ & _ & _ & H & _).
    apply (H 1005); [vm_compute; reflexivity | lia | vm_compute; discriminate].
  - assert (Hp : parse "130" = Some (S754_finite false 4573968371548160 (-45)))
      by (vm_compute; reflexivity).
    pose proof (validate_withdrawal_order "130" STARTING_BALANCE
                  (Hinf _ _ Hp ltac:(discriminate))) as H.
    rewrite Hp in H. destruct H as (_ & _ & _ & _ & H).
    apply (H 130); [vm_compute; reflexivity | lia | reflexivity | vm_compute; reflexivity].
Defined.

(** What the claim C2 says of every string fails at these two: "nan" is
    read by [float] without an error, is not at most 0 and is no integer,
    yet it is refused as an invalid number and not as "not a whole
    number"; "inf" is read as well, and validation ends in an uncaught
    [OverflowError] instead of a refusal. *)
Lemma validate_withdrawal_order_fails :
  parse "nan" = Some S754_nan
  /\ le_int S754_nan 0 = false
  /\ (forall n, ~ is_integer S754_nan n)
  /\ validate_withdrawal "nan" STARTING_BALANCE = Return (false, PStr msg_invalid_number)
  /\ msg_invalid_number <> msg_whole_number
  /\ parse "inf" = Some (S754_infinity false)
  /\ validate_withdrawal "inf" STARTING_BALANCE = Raise OverflowError.
Proof.
  repeat split; try (vm_compute; reflexivity); try discriminate.
Qed.


(** The whole withdrawal for an amount written as "5e1". *)
Example withdraw_5e1 :
  let w' := after (PostWithdraw (body1 "amount" "5e1") noon) customer_world in
  balance (session w') = Some (S754_finite false 5168584259849421 (-46))
  /\ map amount (default [] (file w')) = [50]
  /\ map formatted (default [] (file w'))
     = ["2024-01-01 12:00:00 | Withdrawal " +:+ pound +:+ "50.00 | Balance "
          +:+ pound +:+ "73.45"].
Proof. repeat split; vm_compute; reflexivity. Qed.

(** C6 at the amount "inf".  The session is a logged-in customer's, the
    amount is no positive multiple of 10 within the balance, and the
    request is not answered with [success: false]: [int(amount)] raises an
    [OverflowError] that [except ValueError] does not catch.  The session
    and the ledger file stay as they were. *)
Lemma withdraw_infinity_raises :
  not_customer (session customer_world) = false
  /\ parse "inf" = Some (S754_infinity false)
  /\ api_withdraw (body1 "amount" "inf") noon customer_world
     = (customer_world, Raise OverflowError).
Proof. repeat split; vm_compute; reflexivity. Qed.

Lemma admin_not_authorized_witness :
  is_admin (session admin_world) = Some true
  /\ api_balance admin_world = (admin_world, Return not_authorized)
  /\ api_withdraw (body1 "amount" "10") noon admin_world
     = (admin_world, Return not_authorized).
Proof.
  assert (Ha : is_admin (session admin_world) = Some true)
    by (apply admin_login_is_admin; vm_compute; reflexivity).
  split; [exact Ha|].
  exact (admin_not_authorized (body1 "amount" "10") noon admin_world Ha).
Defined.

Lemma login_rejected_generic_witness :
  exists w',
    api_login (body1 "pin" "0000") new_client = (w', Return (refused login_failed_message))
    /\ truthy (logged_in (session w')) = false
    /\ truthy (is_admin (session w')) = false.
Proof.
  destruct (login_rejected_generic (body1 "pin" "0000") new_client)
    as (w' & Hrun & Hli & Hia & _); [vm_compute; discriminate..|].
  exists w'. repeat split; assumption.
Defined.

Lemma change_pin_mismatch_back_to_step_1_witness :
  exists w',
    api_change_pin (body1 "pin" "5679") confirming_world =
      (w', Return (jsonify [("success", JBool false); ("step", JInt 1);
                            ("message", JStr "PINs do not match. Enter new PIN again.")], 200))
    /\ pin_change_step (session w') = Some 1
    /\ new_pin (session w') = Some "5678".
Proof.
  destruct (change_pin_mismatch_back_to_step_1 (body1 "pin" "5679") confirming_world)
    as (w' & Hrun & Hstep & Hnew & _);
    [vm_compute; reflexivity | vm_compute; reflexivity | vm_compute; discriminate|].
  exists w'. repeat split; assumption.
Defined.

(** What the claim C3 says fails here: the change awaits its confirmation
    with "5678" pending, "5679" is submitted, and afterwards the pending
    PIN is still stored. *)
Lemma change_pin_mismatch_keeps_pending :
  not_customer (session confirming_world) = false
  /\ pin_change_step (session confirming_world) = Some 2
  /\ new_pin (session confirming_world) = Some "5678"
  /\ let w' := after (PostChangePin (body1 "pin" "5679")) confirming_world in
     pin_change_step (session w') = Some 1
     /\ new_pin (session w') = Some "5678"
     /\ new_pin (session w') <> None.
Proof. repeat split; try (vm_compute; reflexivity). discriminate. Qed.

Lemma reachable_pending_consistent_witness :
  reachable confirming_world /\ pending_consistent (session confirming_world).
Proof.
  split; [exact reachable_confirming_world|].
  exact (reachable_pending_consistent confirming_world reachable_confirming_world).
Defined.

(** What the claim C4 says fails here: after the current PIN was verified
    the step is 1, not 0, and no pending PIN is stored yet. *)
Lemma pending_absent_at_step_1 :
  reachable verified_world
  /\ pin_change_step (session verified_world) = Some 1
  /\ new_pin (session verified_world) = None.
Proof.
  split; [exact reachable_verified_world|]. split; vm_compute; reflexivity.
Qed.



(** * Further properties of the handlers *)

(** ** What [initialize_session] does *)

Lemma initialize_session_eq (w : world) :
  initialize_session w = (mkWorld (initialized (session w)) (file w), Return tt).
Proof.
  destruct w as [[p bal li ia st np] f]. unfold initialize_session. run_M. cbn.
  destruct p, bal, li, ia, st; reflexivity.
Qed.

(** X1.  [initialize_session] keeps every value the session already
    stores and gives each missing key its default: [DEFAULT_PIN] for
    [pin], [STARTING_BALANCE] for [balance], false for [logged_in] and
    [is_admin], 0 for [pin_change_step]; it never touches [new_pin] or the
    ledger file, and running it a second time changes nothing more. *)
Theorem initialize_session_idempotent (w : world) :
  let w1 := fst (initialize_session w) in
  fst (initialize_session w1) = w1
  /\ pin (session w1) = Some (default DEFAULT_PIN (pin (session w)))
  /\ balance (session w1) = Some (default STARTING_BALANCE (balance (session w)))
  /\ logged_in (session w1) = Some (default false (logged_in (session w)))
  /\ is_admin (session w1) = Some (default false (is_admin (session w)))
  /\ pin_change_step (session w1) = Some (default 0 (pin_change_step (session w)))
  /\ new_pin (session w1) = new_pin (session w)
  /\ file w1 = file w.
Proof.
  cbn zeta. rewrite !initialize_session_eq. cbn.
  split; [reflexivity|]. repeat split.
Qed.

(** ** The cases of a login and of a PIN-change request *)

Lemma login_cases (data : gmap string string) (w : world) :
  let s := initialized (session w) in
  (credential data = ADMIN_PASSWORD
   /\ api_login data w =
        (mkWorld (set_is_admin true (set_logged_in true s)) (file w), Return admin_welcome))
  \/ (credential data <> ADMIN_PASSWORD
      /\ credential data = default DEFAULT_PIN (pin (session w))
      /\ api_login data w =
           (mkWorld (set_is_admin false (set_logged_in true s)) (file w),
            Return (customer_welcome (List.length (ledger w))
                      (default STARTING_BALANCE (balance (session w))))))
  \/ (credential data <> ADMIN_PASSWORD
      /\ credential data <> default DEFAULT_PIN (pin (session w))
      /\ api_login data w = (mkWorld s (file w), Return (refused login_failed_message))).
Proof.
  unfold api_login, credential, ledger. generalize (default "" (data !! "pin")). intros c.
  run_M. rewrite !initialize_session_eq.
  destruct w as [[p bal li ia st np] f]. cbn.
  destruct (decide (c = ADMIN_PASSWORD)) as [Hadmin|Hadmin].
  { rewrite (bool_decide_eq_true_2 _ Hadmin). left. now split. }
  rewrite (bool_decide_eq_false_2 _ Hadmin). cbn. right.
  destruct p as [p|]; cbn; case_bool_decide as Hpin; cbn;
    [left|right|left|right]; now repeat split.
Qed.

Lemma change_pin_cases (data : gmap string string) (w : world) :
  let s := session w in
  let c := credential data in
  (snd (api_change_pin data w) <> Return (refused "PINs do not match. Enter new PIN again.")
   /\ after (PostChangePin data) w = w)
  \/ (not_customer s = false /\ default 0 (pin_change_step s) = 0 /\ pin s = Some c
      /\ after (PostChangePin data) w = mkWorld (set_pin_change_step 1 s) (file w))
  \/ (not_customer s = false /\ default 0 (pin_change_step s) = 1 /\ valid_pin c = true
      /\ after (PostChangePin data) w
         = mkWorld (set_pin_change_step 2 (set_new_pin c s)) (file w))
  \/ (not_customer s = false /\ default 0 (pin_change_step s) = 2 /\ new_pin s = Some c
      /\ after (PostChangePin data) w
         = mkWorld (pop_new_pin (set_pin_change_step 0 (set_pin c s))) (file w))
  \/ (not_customer s = false /\ default 0 (pin_change_step s) = 2 /\ new_pin s <> Some c
      /\ after (PostChangePin data) w = mkWorld (set_pin_change_step 1 s) (file w)).
Proof.
  unfold after. cbn [handle]. unfold api_change_pin, credential, valid_pin.
  generalize (default "" (data !! "pin")). intros c.
  destruct w as [[p bal li ia st np] f]. run_M. cbn.
  destruct (not_customer _) eqn:Hc; cbn; [left; split; [discriminate|reflexivity]|].
  destruct (Z.eqb_spec (default 0 st) 0) as [E0|E0]; cbn.
  { destruct p as [p|]; cbn; [|left; split; [discriminate|reflexivity]].
    case_bool_decide as Hp; cbn; [|left; split; [discriminate|reflexivity]].
    right; left. subst. repeat split; assumption. }
  destruct (Z.eqb_spec (default 0 st) 1) as [E1|E1]; cbn.
  { destruct (_ && _) eqn:Hv; cbn; [|left; split; [discriminate|reflexivity]].
    right; right; left. repeat split; assumption. }
  destruct (Z.eqb_spec (default 0 st) 2) as [E2|E2]; cbn;
    [|left; split; [discriminate|reflexivity]].
  case_bool_decide as Hn; cbn.
  - right; right; right; left. rewrite <- Hn. cbn. repeat split; assumption.
  - right; right; right; right. repeat split; try assumption. congruence.
Qed.

(** A withdrawal request either leaves the world as it is and does not
    answer with success, or goes through as a whole. *)
Lemma withdraw_cases (data : gmap string string) (now : string) (w : world) :
  (fst (api_withdraw data now w) = w
   /\ forall r, snd (api_withdraw data now w) = Return r -> is_success r = false)
  \/ exists b a g,
       not_customer (session w) = false /\ balance (session w) = Some b
       /\ validate_withdrawal (default "" (data !! "amount")) b = Return (true, PInt a)
       /\ of_int a = Return g
       /\ api_withdraw data now w =
            (mkWorld (set_balance (SFsub prec emax b g) (session w))
               (Some (ledger w ++ [withdrawal_record now a g (SFsub prec emax b g)])%list),
             Return (withdrawn (format_2f g) (SFsub prec emax b g)
                       (withdrawal_record now a g (SFsub prec emax b g)))).
Proof.
  destruct (not_customer (session w)) eqn:Hc.
  { left. unfold api_withdraw. run_M. cbn. rewrite Hc. cbn.
    split; [reflexivity|]. now intros r [= <-]. }
  destruct (balance (session w)) as [b|] eqn:Hb.
  2:{ left. unfold api_withdraw. run_M. cbn. rewrite Hc, Hb. cbn.
      split; [reflexivity|]. discriminate. }
  destruct (validate_withdrawal (default "" (data !! "amount")) b) as [[[] v]|e] eqn:Hv.
  - destruct (validate_accepts_only _ _ _ Hv) as (f & a & -> & _).
    destruct (of_int a) as [g|e] eqn:Hg.
    + right. exists b, a, g. repeat split; try assumption.
      apply (withdraw_accepted data now w b Hc Hb a g Hv Hg).
    + left. unfold api_withdraw. run_M. cbn. rewrite Hc, Hb, Hv. cbn.
      rewrite Hb. unfold sub_int. rewrite Hg. cbn. split; [reflexivity|]. discriminate.
  - left. rewrite (withdraw_refused data now w b Hc Hb v Hv). cbn.
    split; [reflexivity|]. now intros r [= <-].
  - left. rewrite (withdraw_raised data now w b Hc Hb e Hv). cbn.
    split; [reflexivity|]. discriminate.
Qed.

(** ** Sessions every handler can rely on *)

Lemma valid_default_pin : valid_pin DEFAULT_PIN = true.
Proof. reflexivity. Qed.

Lemma session_sound_empty : session_sound empty_session.
Proof. repeat split; cbn; intros; discriminate. Qed.

Lemma session_sound_initialized (s : Session) :
  session_sound s -> session_sound (initialized s).
Proof.
  intros (Hk & Hs & Hp & Hn). unfold initialized. repeat split; cbn; eauto.
  - intros k [= <-]. destruct (pin_change_step s) as [k|] eqn:E; cbn; eauto.
  - intros p [= <-]. destruct (pin s) as [p|] eqn:E; cbn; eauto using valid_default_pin.
Qed.

(** The flags of the login do not matter to soundness once PIN and
    balance are stored. *)
Lemma session_sound_flags (s : Session) (li ia : bool) :
  session_sound (initialized s) ->
  session_sound (set_is_admin ia (set_logged_in li (initialized s))).
Proof.
  intros (Hk & Hs & Hp & Hn). repeat split; cbn; eauto.
Qed.

(** Splits [session_sound] into its four parts and closes each from the
    parts [Hk], [Hs], [Hp], [Hn] that held before. *)
Ltac sound_finish Hk Hs Hp Hn :=
  split; [|split; [|split]]; cbn;
  [ let Hl := fresh "Hl" in
    intros Hl; first [ discriminate Hl | destruct (Hk Hl); split; eauto ]
  | let k := fresh "k" in let Hl := fresh "Hl" in
    intros k Hl; first [ discriminate Hl | injection Hl as <-; auto | eauto ]
  | let q := fresh "q" in let Hl := fresh "Hl" in
    intros q Hl; first [ discriminate Hl | injection Hl as <-; eauto | eauto ]
  | let q := fresh "q" in let Hl := fresh "Hl" in
    intros q Hl; first [ discriminate Hl | injection Hl as <-; eauto | eauto ] ].

Lemma session_sound_step (r : request) (w : world) :
  session_sound (session w) -> session_sound (session (after r w)).
Proof.
  intros Hw. destruct r.
  - unfold after. cbn [handle]. unfold index. unfold mbind, M_bind.
    rewrite initialize_session_eq. cbn. now apply session_sound_initialized.
  - apply session_sound_initialized in Hw. unfold after. cbn [handle].
    destruct (login_cases data w) as [(_ & ->) | [(_ & _ & ->) | (_ & _ & ->)]]; cbn;
      [now apply session_sound_flags | now apply session_sound_flags | assumption].
  - now rewrite balance_query_frame.
  - unfold after. cbn [handle].
    destruct (withdraw_cases data now w) as [[-> _] | (b & a & g & _ & _ & _ & _ & ->)];
      [assumption|].
    destruct Hw as (Hk & Hs & Hp & Hn). sound_finish Hk Hs Hp Hn.
  - destruct Hw as (Hk & Hs & Hp & Hn).
    destruct (change_pin_cases data w)
      as [(_ & ->) | [(Hc & _ & _ & ->) | [(Hc & _ & Hv & ->)
          | [(Hc & _ & Hnew & ->) | (Hc & _ & _ & ->)]]]];
      sound_finish Hk Hs Hp Hn.
  - now rewrite transactions_query_frame.
  - apply session_sound_empty.
  - destruct Hw as (Hk & Hs & Hp & Hn). unfold after. cbn.
    sound_finish Hk Hs Hp Hn.
  - destruct app_debug; [apply session_sound_empty | assumption].
Qed.

Lemma reachable_session_sound (w : world) : reachable w -> session_sound (session w).
Proof.
  induction 1 as [f | w r _ IH]; [apply session_sound_empty|].
  now apply session_sound_step.
Qed.

Lemma not_customer_false (s : Session) :
  not_customer s = false -> logged_in s = Some true /\ truthy (is_admin s) = false.
Proof.
  unfold not_customer, truthy. destruct (logged_in s) as [[]|], (is_admin s) as [[]|];
    cbn; intros; try discriminate; now split.
Qed.

(** X2.  In every reachable state, every request whose JSON body has
    string members is answered with a response, with one exception: a
    withdrawal by a logged-in customer whose amount string [float] reads
    as plus infinity ends in an [OverflowError], leaving the session and
    the ledger file as they were.  In particular no handler ever fails on
    a missing session key or returns no response.  (Members that are not
    strings are outside the requests considered here.) *)
Theorem reachable_answered (w : world) (r : request) :
  reachable w ->
  (exists resp, snd (handle r w) = Return resp)
  \/ (exists data now,
        r = PostWithdraw data now
        /\ not_customer (session w) = false
        /\ parse (default "" (data !! "amount")) = Some (S754_infinity false)
        /\ handle r w = (w, Raise OverflowError)).
Proof.
  intros Hw. pose proof (reachable_session_sound w Hw) as (Hk & Hs & Hp & Hn).
  pose proof (reachable_balance_possible w Hw) as Hposs.
  destruct r; cbn [handle].
  - left. unfold index. run_M. rewrite initialize_session_eq. cbn. eauto.
  - left. destruct (login_cases data w) as [(_ & ->) | [(_ & _ & ->) | (_ & _ & ->)]];
      cbn; eauto.
  - left. unfold api_balance. run_M. cbn.
    destruct (not_customer (session w)) eqn:Hc; cbn; [eauto|].
    destruct (not_customer_false _ Hc) as [Hl _].
    destruct (Hk Hl) as [_ [b ->]]. cbn. eauto.
  - destruct (not_customer (session w)) eqn:Hc.
    { left. unfold api_withdraw. run_M. cbn. rewrite Hc. cbn. eauto. }
    destruct (not_customer_false _ Hc) as [Hl _].
    destruct (Hk Hl) as [_ [b Hb]].
    destruct (validate_withdrawal (default "" (data !! "amount")) b) as [[[] v]|e] eqn:Hv.
    + left.
      destruct (validate_accepts_only _ _ _ Hv) as (f & a & -> & _ & _ & Hpos & Hmod & Hgt).
      unfold balance_possible in Hposs. rewrite Hb in Hposs.
      destruct (possible_balances_closed b a Hposs Hpos Hmod Hgt) as (nb & _ & _ & Hsub & _).
      unfold sub_int in Hsub. destruct (of_int a) as [g|e] eqn:Hg; [|discriminate].
      rewrite (withdraw_accepted data now w b Hc Hb a g Hv Hg). cbn. eauto.
    + left. rewrite (withdraw_refused data now w b Hc Hb v Hv). cbn. eauto.
    + right. exists data, now.
      destruct (validate_raises_only_on_infinity _ _ _ Hv) as [Hinf ->].
      repeat split; try assumption.
      apply (withdraw_raised data now w b Hc Hb _ Hv).
  - left. unfold api_change_pin. run_M. cbn.
    destruct (not_customer (session w)) eqn:Hc; cbn; [eauto|].
    destruct (not_customer_false _ Hc) as [Hl _].
    destruct (Hk Hl) as [[p Hpin] _].
    destruct (pin_change_step (session w)) as [k|] eqn:Hstep; cbn.
    + destruct (Hs k eq_refl) as [-> | [-> | ->]]; cbn.
      * rewrite Hpin. cbn. case_bool_decide; cbn; eauto.
      * destruct (_ && _); cbn; eauto.
      * case_bool_decide as Hq; cbn; [|eauto].
        destruct (new_pin (session w)); [cbn; eauto | discriminate].
    + rewrite Hpin. cbn. case_bool_decide; cbn; eauto.
  - left. unfold api_transactions. run_M. cbn.
    destruct (negb _); cbn; [eauto|]. destruct (truthy _); cbn; eauto.
  - left. cbn. eauto.
  - left. cbn. eauto.
  - left. destruct app_debug; cbn; eauto.
Qed.

(** X3.  In every reachable session the balance, when stored, is the
    starting balance less 10 k for some k from 0 to 12, exactly and without
    rounding error; so it is never negative and never above the starting
    balance. *)
Theorem reachable_balance_range (w : world) (b : float) :
  reachable w -> balance (session w) = Some b ->
  exists (k : Z) (q0 q : Q),
    0 <= k <= 12
    /\ to_Q STARTING_BALANCE = Some q0 /\ to_Q b = Some q
    /\ Qeq q (Qminus q0 (inject_Z (10 * k)))
    /\ Qle (inject_Z 0) q /\ Qle q q0.
Proof.
  intros Hw Hb. pose proof (reachable_balance_possible w Hw) as Hin.
  unfold balance_possible in Hin. rewrite Hb in Hin.
  unfold possible_balances in Hin. cbn [In] in Hin.
  assert (Hcase : forall k, 0 <= k <= 12 ->
            (exists q0 q, to_Q STARTING_BALANCE = Some q0 /\ to_Q b = Some q
                          /\ Qeq q (Qminus q0 (inject_Z (10 * k)))
                          /\ Qle (inject_Z 0) q /\ Qle q q0) ->
            exists (k : Z) (q0 q : Q),
              0 <= k <= 12 /\ to_Q STARTING_BALANCE = Some q0 /\ to_Q b = Some q
              /\ Qeq q (Qminus q0 (inject_Z (10 * k)))
              /\ Qle (inject_Z 0) q /\ Qle q q0).
  { intros k Hk (q0 & q & H). exists k, q0, q. now split. }
  repeat (destruct Hin as [<-|Hin]; [|]); try contradiction;
    [ apply (Hcase 0) | apply (Hcase 1) | apply (Hcase 2) | apply (Hcase 3)
    | apply (Hcase 4) | apply (Hcase 5) | apply (Hcase 6) | apply (Hcase 7)
    | apply (Hcase 8) | apply (Hcase 9) | apply (Hcase 10) | apply (Hcase 11)
    | apply (Hcase 12) ]; try lia;
    (eexists _, _;
     split; [vm_compute; reflexivity|];
     split; [vm_compute; reflexivity|];
     split; [vm_compute; reflexivity|];
     split; vm_compute; discriminate).
Qed.

Lemma valid_pin_shape (p : string) :
  valid_pin p = true -> String.length p = 4%nat /\ digits_only p.
Proof.
  unfold valid_pin, digits_only. intros H. apply andb_prop in H as [Hl Hd].
  split; [now apply Nat.eqb_eq|].
  unfold isdigit in Hd. assert (Ha : all_isdigit p = true) by (destruct p; [discriminate|exact Hd]).
  clear Hd Hl. induction p as [|c p IH]; cbn; [constructor|].
  cbn in Ha. apply andb_prop in Ha as [Hc Hrest]. constructor; auto.
Qed.

(** X4.  In every reachable session the PIN, and the pending new PIN of a
    PIN change, have exactly four characters, each a digit in the sense of
    [str.isdigit]; and the step of the PIN change is 0, 1 or 2. *)
Theorem reachable_pins_valid (w : world) :
  reachable w ->
  (forall p, pin (session w) = Some p -> String.length p = 4%nat /\ digits_only p)
  /\ (forall p, new_pin (session w) = Some p -> String.length p = 4%nat /\ digits_only p)
  /\ (forall k, pin_change_step (session w) = Some k -> k = 0 \/ k = 1 \/ k = 2).
Proof.
  intros Hw. destruct (reachable_session_sound w Hw) as (_ & Hs & Hp & Hn).
  split; [|split].
  - intros p Hq. apply valid_pin_shape. eauto.
  - intros p Hq. apply valid_pin_shape. eauto.
  - exact Hs.
Qed.

(** ** What the requests can and cannot change *)

Lemma after_index (w : world) :
  after GetIndex w = mkWorld (initialized (session w)) (file w).
Proof.
  unfold after. cbn [handle]. unfold index. run_M. rewrite initialize_session_eq.
  reflexivity.
Qed.

Lemma after_login (data : gmap string string) (w : world) :
  let s := initialized (session w) in
  (credential data = ADMIN_PASSWORD
   /\ after (PostLogin data) w = mkWorld (set_is_admin true (set_logged_in true s)) (file w))
  \/ (credential data <> ADMIN_PASSWORD
      /\ credential data = default DEFAULT_PIN (pin (session w))
      /\ after (PostLogin data) w
         = mkWorld (set_is_admin false (set_logged_in true s)) (file w))
  \/ (credential data <> ADMIN_PASSWORD
      /\ credential data <> default DEFAULT_PIN (pin (session w))
      /\ after (PostLogin data) w = mkWorld s (file w)).
Proof.
  unfold after. cbn [handle].
  destruct (login_cases data w) as [(H & ->) | [(H1 & H2 & ->) | (H1 & H2 & ->)]]; cbn;
    [left | right; left | right; right]; repeat split; assumption.
Qed.

Lemma after_withdraw (data : gmap string string) (now : string) (w : world) :
  after (PostWithdraw data now) w = w
  \/ exists b a g,
       not_customer (session w) = false /\ balance (session w) = Some b
       /\ validate_withdrawal (default "" (data !! "amount")) b = Return (true, PInt a)
       /\ of_int a = Return g
       /\ after (PostWithdraw data now) w
          = mkWorld (set_balance (SFsub prec emax b g) (session w))
              (Some (ledger w ++ [withdrawal_record now a g (SFsub prec emax b g)])%list).
Proof.
  unfold after. cbn [handle].
  destruct (withdraw_cases data now w) as [[-> _] | (b & a & g & Hc & Hb & Hv & Hg & ->)];
    [now left|].
  right. exists b, a, g. repeat split; assumption.
Qed.

(** One request leaves the ledger as it is, or is a withdrawal that
    appends one record, or is the reset of all data. *)
Lemma ledger_step (r : request) (w : world) :
  r <> PostResetData true ->
  ledger (after r w) = ledger w
  \/ exists data now t,
       r = PostWithdraw data now
       /\ ledger (after r w) = (ledger w ++ [t])%list /\ type t = "withdrawal".
Proof.
  intros Hr. destruct r.
  - left. now rewrite after_index.
  - left. destruct (after_login data w) as [(_ & ->) | [(_ & _ & ->) | (_ & _ & ->)]];
      reflexivity.
  - left. now rewrite balance_query_frame.
  - destruct (after_withdraw data now w) as [-> | (b & a & g & _ & _ & _ & _ & ->)];
      [now left|].
    right. eexists data, now, _. repeat split.
  - left. unfold ledger. now rewrite (proj2 (change_pin_frame data w)).
  - left. now rewrite transactions_query_frame.
  - now left.
  - now left.
  - destruct app_debug; [contradiction|now left].
Qed.

(** X5.  The ledger is append-only: over any sequence of requests that
    does not contain the development reset of all data, the records that
    were in the ledger stay in it, unchanged and in order, and what is
    added are withdrawal records, at most one for each withdrawal
    request. *)
Theorem ledger_append_only (rs : list request) (w : world) :
  Forall (fun r => r <> PostResetData true) rs ->
  exists added,
    ledger (run rs w) = (ledger w ++ added)%list
    /\ (List.length added <= withdraw_requests rs)%nat
    /\ Forall (fun t => type t = "withdrawal") added.
Proof.
  intros Hrs. revert w. induction Hrs as [|r rs Hr _ IH]; intros w.
  - exists []. cbn. rewrite app_nil_r. repeat split; [lia | constructor].
  - change (run (r :: rs) w) with (run rs (after r w)).
    destruct (IH (after r w)) as (added & Hl & Hn & Ht).
    destruct (ledger_step r w Hr) as [E | (data & now & t & -> & E & Ety)].
    + exists added. rewrite <- E. repeat split; try assumption.
      unfold withdraw_requests in *. cbn. destruct r; cbn; lia.
    + exists (t :: added). rewrite Hl, E, <- app_assoc. repeat split.
      * unfold withdraw_requests in *. cbn. lia.
      * now constructor.
Qed.

(** X6.  The admin role is only ever obtained by a login with the admin
    password: a request leaves [is_admin] true only if it already was, or
    if the request is a login whose credential is the admin password. *)
Theorem admin_only_by_password (r : request) (w : world) :
  is_admin (session (after r w)) = Some true ->
  is_admin (session w) = Some true
  \/ exists data, r = PostLogin data /\ credential data = ADMIN_PASSWORD.
Proof.
  destruct r.
  - rewrite after_index. cbn. destruct (is_admin (session w)) as [[]|]; cbn; auto;
      discriminate.
  - destruct (after_login data w) as [(H & ->) | [(_ & _ & ->) | (_ & _ & ->)]]; cbn.
    + right. eauto.
    + discriminate.
    + destruct (is_admin (session w)) as [[]|]; cbn; auto; discriminate.
  - rewrite balance_query_frame. auto.
  - destruct (after_withdraw data now w) as [-> | (b & a & g & _ & _ & _ & _ & ->)];
      cbn; auto.
  - destruct (change_pin_cases data w)
      as [(_ & ->) | [(_ & _ & _ & ->) | [(_ & _ & _ & ->)
          | [(_ & _ & _ & ->) | (_ & _ & _ & ->)]]]]; cbn; auto.
  - rewrite transactions_query_frame. auto.
  - cbn. discriminate.
  - cbn. auto.
  - destruct app_debug; cbn; [discriminate|auto].
Qed.

(** X7.  A session only becomes logged in through a login that presents
    the admin password or the PIN of the session (the default PIN when
    none is stored): a request leaves [logged_in] true only if it already
    was, or if it is such a login. *)
Theorem logged_in_only_by_login (r : request) (w : world) :
  logged_in (session (after r w)) = Some true ->
  logged_in (session w) = Some true
  \/ exists data,
       r = PostLogin data
       /\ (credential data = ADMIN_PASSWORD
           \/ credential data = default DEFAULT_PIN (pin (session w))).
Proof.
  destruct r.
  - rewrite after_index. cbn. destruct (logged_in (session w)) as [[]|]; cbn; auto;
      discriminate.
  - destruct (after_login data w) as [(H & ->) | [(_ & H & ->) | (_ & _ & ->)]]; cbn.
    + right. eauto.
    + right. eauto.
    + destruct (logged_in (session w)) as [[]|]; cbn; auto; discriminate.
  - rewrite balance_query_frame. auto.
  - destruct (after_withdraw data now w) as [-> | (b & a & g & _ & _ & _ & _ & ->)];
      cbn; auto.
  - destruct (change_pin_cases data w)
      as [(_ & ->) | [(_ & _ & _ & ->) | [(_ & _ & _ & ->)
          | [(_ & _ & _ & ->) | (_ & _ & _ & ->)]]]]; cbn; auto.
  - rewrite transactions_query_frame. auto.
  - cbn. discriminate.
  - cbn. auto.
  - destruct app_debug; cbn; [discriminate|auto].
Qed.

(** X8.  A stored PIN changes only when the session is cleared (logout,
    or the development reset of all data) or when a logged-in customer
    confirms, at step 2 of the PIN change, the pending new PIN; in that
    case the new PIN is the confirmed one. *)
Theorem pin_changes_only_by_confirmation (r : request) (w : world) (p : string) :
  pin (session w) = Some p ->
  pin (session (after r w)) = Some p
  \/ ((r = PostLogout \/ r = PostResetData true) /\ pin (session (after r w)) = None)
  \/ exists data,
       r = PostChangePin data
       /\ not_customer (session w) = false
       /\ pin_change_step (session w) = Some 2
       /\ new_pin (session w) = Some (credential data)
       /\ pin (session (after r w)) = Some (credential data).
Proof.
  intros Hp. destruct r.
  - left. rewrite after_index. cbn. now rewrite Hp.
  - left. destruct (after_login data w) as [(_ & ->) | [(_ & _ & ->) | (_ & _ & ->)]];
      cbn; now rewrite Hp.
  - left. now rewrite balance_query_frame.
  - left. destruct (after_withdraw data now w) as [-> | (b & a & g & _ & _ & _ & _ & ->)];
      cbn; assumption.
  - destruct (change_pin_cases data w)
      as [(_ & ->) | [(_ & _ & _ & ->) | [(_ & _ & _ & ->)
          | [(Hc & Hs & Hn & ->) | (_ & _ & _ & ->)]]]]; cbn; auto.
    right; right. exists data. repeat split; try assumption.
    destruct (pin_change_step (session w)) as [k|]; cbn in Hs; [now subst|discriminate].
  - left. now rewrite transactions_query_frame.
  - right; left. split; [now left|reflexivity].
  - left. assumption.
  - destruct app_debug; [right; left; split; [now right|reflexivity] | now left].
Qed.

(** X9.  A stored balance changes only when the session is cleared or
    when a withdrawal by a logged-in customer passes validation; in that
    case the new balance is the old one less the validated amount. *)
Theorem balance_changes_only_by_withdrawal (r : request) (w : world) (b : float) :
  balance (session w) = Some b ->
  balance (session (after r w)) = Some b
  \/ ((r = PostLogout \/ r = PostResetData true) /\ balance (session (after r w)) = None)
  \/ exists data now a new_balance,
       r = PostWithdraw data now
       /\ not_customer (session w) = false
       /\ validate_withdrawal (default "" (data !! "amount")) b = Return (true, PInt a)
       /\ sub_int b a = Return new_balance
       /\ balance (session (after r w)) = Some new_balance.
Proof.
  intros Hb. destruct r.
  - left. rewrite after_index. cbn. now rewrite Hb.
  - left. destruct (after_login data w) as [(_ & ->) | [(_ & _ & ->) | (_ & _ & ->)]];
      cbn; now rewrite Hb.
  - left. now rewrite balance_query_frame.
  - destruct (after_withdraw data now w)
      as [-> | (b' & a & g & Hc & Hb' & Hv & Hg & ->)]; [now left|].
    right; right. rewrite Hb in Hb'. injection Hb' as <-.
    exists data, now, a, (SFsub prec emax b g). repeat split; try assumption.
    unfold sub_int. now rewrite Hg.
  - left. now rewrite (proj1 (change_pin_frame data w)).
  - left. now rewrite transactions_query_frame.
  - right; left. split; [now left|reflexivity].
  - left. assumption.
  - destruct app_debug; [right; left; split; [now right|reflexivity] | now left].
Qed.

(** ** The PIN change, step by step and as a whole *)

Lemma run_cons (r : request) (rs : list request) (w : world) :
  run (r :: rs) w = run rs (after r w).
Proof. reflexivity. Qed.

Lemma change_pin_verify (data : gmap string string) (w : world) :
  not_customer (session w) = false ->
  default 0 (pin_change_step (session w)) = 0 ->
  pin (session w) = Some (credential data) ->
  after (PostChangePin data) w = mkWorld (set_pin_change_step 1 (session w)) (file w).
Proof.
  intros Hc Hs Hp. unfold after. cbn [handle]. unfold api_change_pin, credential in *.
  run_M. cbn. rewrite Hc, Hs. cbn. rewrite Hp. cbn.
  rewrite bool_decide_eq_true_2 by reflexivity. reflexivity.
Qed.

Lemma change_pin_enter (data : gmap string string) (w : world) :
  not_customer (session w) = false ->
  pin_change_step (session w) = Some 1 ->
  valid_pin (credential data) = true ->
  after (PostChangePin data) w
  = mkWorld (set_pin_change_step 2 (set_new_pin (credential data) (session w))) (file w).
Proof.
  intros Hc Hs Hv. unfold after. cbn [handle].
  unfold api_change_pin, credential, valid_pin in *.
  run_M. cbn. rewrite Hc, Hs. cbn. rewrite Hv. reflexivity.
Qed.

Lemma change_pin_confirm (data : gmap string string) (w : world) :
  not_customer (session w) = false ->
  pin_change_step (session w) = Some 2 ->
  new_pin (session w) = Some (credential data) ->
  after (PostChangePin data) w
  = mkWorld (pop_new_pin (set_pin_change_step 0 (set_pin (credential data) (session w))))
      (file w).
Proof.
  intros Hc Hs Hn. unfold after. cbn [handle].
  now rewrite (change_pin_confirmed data w Hc Hs Hn).
Qed.

Lemma change_pin_reject (data : gmap string string) (w : world) :
  not_customer (session w) = false ->
  pin_change_step (session w) = Some 2 ->
  Some (credential data) <> new_pin (session w) ->
  after (PostChangePin data) w = mkWorld (set_pin_change_step 1 (session w)) (file w).
Proof.
  intros Hc Hs Hn. unfold after. cbn [handle].
  now rewrite (change_pin_mismatch data w Hc Hs Hn).
Qed.

(** X10.  The three steps of the PIN change compose: for a logged-in
    customer whose PIN change is idle, submitting the current PIN, then a
    new PIN of four digits, then the same new PIN again, leaves the session
    with the new PIN, the step back at 0 and no pending PIN; the balance,
    the login flags and the ledger file are untouched. *)
Theorem change_pin_flow (d1 d2 d3 : gmap string string) (w : world) (p q : string) :
  not_customer (session w) = false ->
  pin (session w) = Some p ->
  default 0 (pin_change_step (session w)) = 0 ->
  credential d1 = p -> credential d2 = q -> credential d3 = q ->
  valid_pin q = true ->
  run [PostChangePin d1; PostChangePin d2; PostChangePin d3] w
  = mkWorld (mkSession (Some q) (balance (session w)) (logged_in (session w))
               (is_admin (session w)) (Some 0) None) (file w).
Proof.
  intros Hc Hp Hs H1 H2 H3 Hv. subst p. rewrite !run_cons.
  rewrite (change_pin_verify d1 w Hc Hs Hp).
  rewrite (change_pin_enter d2) by (cbn; rewrite ?H2; auto).
  rewrite (change_pin_confirm d3) by (cbn; rewrite ?H2, ?H3; auto).
  cbn. rewrite H3. reflexivity.
Qed.

(** X11.  A failed confirmation does not spoil the flow, and the pending
    PIN it leaves behind is never committed: from step 2 with some PIN
    pending, a confirmation that differs, then a new PIN of four digits,
    then that PIN again, leave the session with the PIN entered last. *)
Theorem change_pin_retry (d1 d2 d3 : gmap string string) (w : world) (q : string) :
  not_customer (session w) = false ->
  pin_change_step (session w) = Some 2 ->
  Some (credential d1) <> new_pin (session w) ->
  credential d2 = q -> credential d3 = q ->
  valid_pin q = true ->
  run [PostChangePin d1; PostChangePin d2; PostChangePin d3] w
  = mkWorld (mkSession (Some q) (balance (session w)) (logged_in (session w))
               (is_admin (session w)) (Some 0) None) (file w).
Proof.
  intros Hc Hs Hn H2 H3 Hv. rewrite !run_cons.
  rewrite (change_pin_reject d1 w Hc Hs Hn).
  rewrite (change_pin_enter d2) by (cbn; rewrite ?H2; auto).
  rewrite (change_pin_confirm d3) by (cbn; rewrite ?H2, ?H3; auto).
  cbn. rewrite H3. reflexivity.
Qed.

(** X12.  A reset cancels the PIN change: in any session, whatever was
    pending, the PIN-change request that follows a reset never changes the
    PIN and leaves no pending PIN; it is taken as a new first step. *)
Theorem reset_cancels_pin_change (data : gmap string string) (w : world) :
  let w' := run [PostResetPinChange; PostChangePin data] w in
  pin (session w') = pin (session w)
  /\ new_pin (session w') = None
  /\ (pin_change_step (session w') = Some 0 \/ pin_change_step (session w') = Some 1)
  /\ balance (session w') = balance (session w)
  /\ file w' = file w.
Proof.
  cbn zeta. rewrite !run_cons. cbn [run fold_left].
  set (w1 := after PostResetPinChange w).
  assert (H1 : w1 = mkWorld (pop_new_pin (set_pin_change_step 0 (session w))) (file w))
    by reflexivity.
  destruct (change_pin_cases data w1)
    as [(_ & ->) | [(_ & _ & _ & ->) | [(_ & Hs & _ & _)
        | [(_ & Hs & _ & _) | (_ & Hs & _ & _)]]]];
    rewrite ?H1 in *; cbn in *; try discriminate; repeat split; auto.
Qed.

(** ** Logging out and in again *)

Lemma login_fresh (data : gmap string string) (f : option (list Transaction)) :
  credential data = DEFAULT_PIN ->
  api_login data (mkWorld empty_session f)
  = (mkWorld (mkSession (Some DEFAULT_PIN) (Some STARTING_BALANCE) (Some true)
                (Some false) (Some 0) None) f,
     Return (customer_welcome (List.length (default [] f)) STARTING_BALANCE)).
Proof.
  intros Hd.
  destruct (login_cases data (mkWorld empty_session f))
    as [(H & _) | [(_ & _ & ->) | (_ & H & _)]].
  - rewrite Hd in H. discriminate.
  - reflexivity.
  - cbn in H. contradiction.
Qed.

(** X13.  What the session holds does not survive a logout: whatever the
    PIN and the balance were, after a logout a login with the default PIN
    succeeds as a customer with the starting balance again, while the
    ledger still holds every record. *)
Theorem logout_restores_defaults (data : gmap string string) (w : world) :
  credential data = DEFAULT_PIN ->
  api_login data (after PostLogout w)
  = (mkWorld (mkSession (Some DEFAULT_PIN) (Some STARTING_BALANCE) (Some true)
                (Some false) (Some 0) None) (file w),
     Return (customer_welcome (List.length (ledger w)) STARTING_BALANCE)).
Proof. intros Hd. apply (login_fresh data (file w) Hd). Qed.

(** X14.  The customer routes are closed to everyone else: in a session
    that is not logged in, or is an admin's, the balance query, the
    withdrawal and the PIN change are all answered "Not authorized" with
    status 401 and change neither the session nor the ledger file. *)
Theorem customer_routes_need_customer
    (data : gmap string string) (now : string) (w : world) :
  not_customer (session w) = true ->
  api_balance w = (w, Return not_authorized)
  /\ api_withdraw data now w = (w, Return not_authorized)
  /\ api_change_pin data w = (w, Return not_authorized).
Proof.
  intros Hc. unfold api_balance, api_withdraw, api_change_pin. run_M. cbn.
  rewrite Hc. repeat split.
Qed.

(** X15.  In every reachable session of a logged-in customer the balance
    query answers the stored balance and changes nothing: the balance is
    always there to be read. *)
Theorem reachable_balance_query (w : world) :
  reachable w -> not_customer (session w) = false ->
  exists b,
    balance (session w) = Some b
    /\ api_balance w = (w, Return (jsonify [("balance", JFloat b)], 200)).
Proof.
  intros Hw Hc. destruct (reachable_session_sound w Hw) as (Hk & _).
  destruct (not_customer_false _ Hc) as [Hl _].
  destruct (Hk Hl) as [_ [b Hb]]. exists b. split; [assumption|].
  unfold api_balance. run_M. cbn. rewrite Hc, Hb. reflexivity.
Qed.

(** ** Withdrawals and the history *)

Lemma transactions_answer (w : world) :
  truthy (logged_in (session w)) = true ->
  api_transactions w = (w, Return (history (ledger w))).
Proof.
  intros Hl. unfold api_transactions, history, ledger. run_M. cbn. rewrite Hl. cbn.
  destruct (truthy (is_admin (session w))); reflexivity.
Qed.

(** X16.  A withdrawal shows in the history at once, to the customer and
    to the admin alike: in a reachable customer session, after a
    withdrawal of an amount that is a positive multiple of 10 within the
    balance, the transaction history is the former ledger followed by the
    new record, with the count to match; an admin who logs in next gets
    the same answer. *)
Theorem withdrawal_shows_in_history
    (data : gmap string string) (now : string) (w : world) (b f : float) (n : Z) :
  reachable w ->
  not_customer (session w) = false -> balance (session w) = Some b ->
  parse (default "" (data !! "amount")) = Some f ->
  is_integer f n -> 0 < n -> n mod 10 = 0 -> int_gt n b = false ->
  exists t,
    let w' := after (PostWithdraw data now) w in
    ledger w' = (ledger w ++ [t])%list
    /\ amount t = n /\ timestamp t = now
    /\ api_transactions w' = (w', Return (history (ledger w ++ [t])))
    /\ forall d, credential d = ADMIN_PASSWORD ->
         snd (api_transactions (after (PostLogin d) w'))
         = Return (history (ledger w ++ [t])).
Proof.
  intros Hw Hc Hb Hp Hn Hpos Hmod Hgt.
  pose proof (validate_integer _ b f n Hp Hn Hpos) as Hv.
  rewrite Hmod, Hgt in Hv. cbn in Hv.
  pose proof (reachable_balance_possible w Hw) as Hin.
  unfold balance_possible in Hin. rewrite Hb in Hin.
  destruct (possible_balances_closed b n Hin Hpos Hmod Hgt) as (nb & _ & _ & Hs & _).
  unfold sub_int in Hs. destruct (of_int n) as [g|e] eqn:Hg; [|discriminate]. clear Hs nb.
  pose proof (withdraw_accepted data now w b Hc Hb n g Hv Hg) as Hrun. cbn zeta in Hrun.
  destruct (not_customer_false _ Hc) as [Hl _].
  assert (Hafter : after (PostWithdraw data now) w
                   = mkWorld (set_balance (SFsub prec emax b g) (session w))
                       (Some (ledger w ++ [withdrawal_record now n g (SFsub prec emax b g)])%list)).
  { unfold after. cbn [handle]. now rewrite Hrun. }
  exists (withdrawal_record now n g (SFsub prec emax b g)). cbn zeta. rewrite Hafter.
  split; [reflexivity|]. split; [reflexivity|]. split; [reflexivity|]. split.
  - apply transactions_answer. cbn. now rewrite Hl.
  - intros d Hd.
    match goal with
    | |- context [after (PostLogin d) ?w0] =>
        destruct (after_login d w0) as [(_ & ->) | [(H & _) | (H & _)]]
    end; try contradiction.
    now rewrite transactions_answer.
Qed.

(** X17.  Validation accepts exactly the amounts that [float] reads as a
    positive integer multiple of 10 which is not above the balance, and
    then returns that integer; it never reports success with a message in
    place of the amount. *)
Theorem validate_accepts_iff (amount_str : string) (balance : float) (v : pyval) :
  validate_withdrawal amount_str balance = Return (true, v)
  <-> exists f n, v = PInt n /\ parse amount_str = Some f /\ is_integer f n
                  /\ 0 < n /\ n mod 10 = 0 /\ int_gt n balance = false.
Proof.
  split.
  - apply validate_accepts_only.
  - intros (f & n & -> & Hp & Hn & Hpos & Hmod & Hgt).
    rewrite (validate_integer _ _ f n Hp Hn Hpos), Hmod, Hgt. reflexivity.
Qed.

(** X18.  Validation raises for exactly the strings that [float] reads as
    plus infinity, and then what it raises is an [OverflowError]; for
    every other string it returns a verdict. *)
Theorem validate_raises_iff_infinity (amount_str : string) (balance : float) (e : exn) :
  validate_withdrawal amount_str balance = Raise e
  <-> parse amount_str = Some (S754_infinity false) /\ e = OverflowError.
Proof.
  split.
  - apply validate_raises_only_on_infinity.
  - intros [Hp ->]. now apply validate_infinity.
Qed.

(** X19.  For an amount given as a string, and but for the strings read
    as plus infinity, a refused withdrawal is a clean refusal: when a
    logged-in customer asks for an amount string that is not read as a
    positive integer multiple of 10 within the balance, the answer is
    [success: false] with a message, and the session and the ledger file
    are exactly as before. *)
Theorem withdraw_refuses_invalid
    (data : gmap string string) (now : string) (w : world) (b : float) :
  not_customer (session w) = false -> balance (session w) = Some b ->
  parse (default "" (data !! "amount")) <> Some (S754_infinity false) ->
  ~ (exists f n, parse (default "" (data !! "amount")) = Some f /\ is_integer f n
                 /\ 0 < n /\ n mod 10 = 0 /\ int_gt n b = false) ->
  exists message,
    api_withdraw data now w = (w, Return (refused message))
    /\ is_success (refused message) = false.
Proof.
  intros Hc Hb Hinf Hbad.
  destruct (withdraw_rejected_unchanged data now w b Hc Hb Hinf Hbad) as [message H].
  exists message. now split.
Qed.

(** X20.  In every reachable session a successful withdrawal takes
    exactly the requested amount off the balance: the amount [a] is the
    integer that [float] reads from the amount string of the request, a
    positive multiple of 10; the record appended to the ledger and
    returned in the answer carries [a] and the new balance; and the new
    balance is the old one less [a] with nothing rounded, and not
    negative. *)
Theorem reachable_withdraw_exact
    (data : gmap string string) (now : string) (w w' : world) (b : float) (r : response) :
  reachable w -> balance (session w) = Some b ->
  api_withdraw data now w = (w', Return r) -> is_success r = true ->
  exists (f : float) (a : Z) (g new_balance : float) (qb qn : Q),
    parse (default "" (data !! "amount")) = Some f /\ is_integer f a
    /\ validate_withdrawal (default "" (data !! "amount")) b = Return (true, PInt a)
    /\ 0 < a /\ a mod 10 = 0
    /\ session w' = set_balance new_balance (session w)
    /\ file w' = Some (ledger w ++ [withdrawal_record now a g new_balance])%list
    /\ r = withdrawn (format_2f g) new_balance (withdrawal_record now a g new_balance)
    /\ to_Q b = Some qb /\ to_Q new_balance = Some qn
    /\ Qeq qn (Qminus qb (inject_Z a)) /\ Qle (inject_Z 0) qn.
Proof.
  intros Hw Hb Hrun Hok.
  destruct (withdraw_cases data now w) as [[_ H] | (b' & a & g & _ & Hb' & Hv & Hg & E)].
  { rewrite Hrun in H. rewrite (H r eq_refl) in Hok. discriminate. }
  rewrite Hb in Hb'. injection Hb' as <-.
  rewrite Hrun in E. injection E as -> ->.
  destruct (validate_accepts_only _ _ _ Hv) as (f & n & [= <-] & Hp & Hn & Hpos & Hmod & Hgt).
  pose proof (reachable_balance_possible w Hw) as Hin.
  unfold balance_possible in Hin. rewrite Hb in Hin.
  destruct (possible_balances_closed b a Hin Hpos Hmod Hgt)
    as (nb & qb & qn & Hs & _ & Hqb & Hqn & Hex & Hnn).
  unfold sub_int in Hs. rewrite Hg in Hs. cbn in Hs. injection Hs as <-.
  exists f, a, g, (SFsub prec emax b g), qb, qn. repeat split; assumption.
Qed.

(** X21.  The admin password shadows an equal PIN: in a session whose PIN
    is the admin password, which the PIN change accepts as a new PIN, no
    credential logs in as a customer; a login is either answered as an
    admin login or refused. *)
Theorem pin_equal_to_admin_password_locks_out (data : gmap string string) (w : world) :
  pin (session w) = Some ADMIN_PASSWORD ->
  valid_pin ADMIN_PASSWORD = true
  /\ ((credential data = ADMIN_PASSWORD
       /\ snd (api_login data w) = Return admin_welcome
       /\ is_admin (session (after (PostLogin data) w)) = Some true)
      \/ (credential data <> ADMIN_PASSWORD
          /\ snd (api_login data w) = Return (refused login_failed_message))).
Proof.
  intros Hp. split; [reflexivity|]. unfold after. cbn [handle].
  destruct (login_cases data w) as [(H & ->) | [(H1 & H2 & _) | (H1 & _ & ->)]]; cbn.
  - left. repeat split. assumption.
  - rewrite Hp in H2. cbn in H2. contradiction.
  - right. now split.
Qed.

(** ** The ledger file *)

(** X22.  [add_transaction], for a type tag of ASCII characters (every
    route passes "withdrawal"), writes the file only once the record is
    complete: when the amount converts to a float, the ledger as loaded
    (empty when the file is missing or does not decode) is saved with the
    one new record at its end and that record is returned, the session
    untouched; when the amount is too large for a float, formatting raises
    an [OverflowError] and the file stays as it was. *)
Theorem add_transaction_appends
    (a : Z) (balance_after : float) (now transaction_type : string) (w : world) :
  ascii_only transaction_type ->
  match of_int a with
  | Return g =>
      let t := {| timestamp := now; type := transaction_type; amount := a;
                  balance_after := balance_after;
                  formatted := now +:+ " | " +:+ title transaction_type +:+ " " +:+ pound
                                 +:+ format_2f g +:+ " | Balance " +:+ pound
                                 +:+ format_2f balance_after |} in
      add_transaction a balance_after now transaction_type w
      = (mkWorld (session w) (Some (ledger w ++ [t])%list), Return t)
  | Raise e =>
      add_transaction a balance_after now transaction_type w = (w, Raise OverflowError)
  end.
Proof.
  intros _. unfold add_transaction, format_int_2f, ledger. run_M. cbn.
  unfold of_int. destruct (binary_normalize prec emax a 0 false); reflexivity.
Qed.

(** X23.  The development reset starts everything over, and only in debug
    mode: with [app.debug] set it clears the session and removes the
    ledger file, so that the next login with the default PIN is answered
    with the starting balance and a transaction count of 0; without it the
    request is refused with status 403 and changes nothing. *)
Theorem reset_data_starts_over (data : gmap string string) (w : world) :
  credential data = DEFAULT_PIN ->
  snd (api_login data (after (PostResetData true) w))
  = Return (customer_welcome 0 STARTING_BALANCE)
  /\ ledger (after (PostResetData true) w) = []
  /\ reset_data false w
     = (w, Return (jsonify [("error", JStr "Not available in production")], 403)).
Proof.
  intros Hd. split; [|split; reflexivity].
  change (after (PostResetData true) w) with (mkWorld empty_session None).
  now rewrite (login_fresh data None Hd).
Qed.

(** ** The further properties at work on concrete sessions *)

Lemma reachable_withdrawn_world : reachable withdrawn_world.
Proof. apply reachable_step, reachable_customer_world. Qed.

Lemma reachable_shadowed_world : reachable shadowed_world.
Proof. apply reachable_run, reachable_customer_world. Qed.

Lemma reachable_answered_witness :
  reachable withdrawn_world
  /\ ((exists resp,
         snd (handle (PostWithdraw (body1 "amount" "70") noon) withdrawn_world) = Return resp)
      \/ (exists data now,
            PostWithdraw (body1 "amount" "70") noon = PostWithdraw data now
            /\ not_customer (session withdrawn_world) = false
            /\ parse (default "" (data !! "amount")) = Some (S754_infinity false)
            /\ handle (PostWithdraw (body1 "amount" "70") noon) withdrawn_world
               = (withdrawn_world, Raise OverflowError))).
Proof.
  split; [exact reachable_withdrawn_world|].
  exact (reachable_answered withdrawn_world (PostWithdraw (body1 "amount" "70") noon)
           reachable_withdrawn_world).
Defined.

Lemma reachable_balance_range_witness :
  balance (session withdrawn_world) = Some (S754_finite false 5168584259849421 (-46))
  /\ exists (k : Z) (q0 q : Q),
       0 <= k <= 12
       /\ to_Q STARTING_BALANCE = Some q0
       /\ to_Q (S754_finite false 5168584259849421 (-46)) = Some q
       /\ Qeq q (Qminus q0 (inject_Z (10 * k)))
       /\ Qle (inject_Z 0) q /\ Qle q q0.
Proof.
  assert (Hb : balance (session withdrawn_world)
               = Some (S754_finite false 5168584259849421 (-46)))
    by (vm_compute; reflexivity).
  split; [exact Hb|].
  exact (reachable_balance_range withdrawn_world _ reachable_withdrawn_world Hb).
Defined.

Lemma reachable_pins_valid_witness :
  reachable confirming_world
  /\ new_pin (session confirming_world) = Some "5678"
  /\ String.length "5678" = 4%nat /\ digits_only "5678".
Proof.
  assert (Hn : new_pin (session confirming_world) = Some "5678")
    by (vm_compute; reflexivity).
  split; [exact reachable_confirming_world|]. split; [exact Hn|].
  exact (proj1 (proj2 (reachable_pins_valid confirming_world reachable_confirming_world))
           "5678" Hn).
Defined.

Lemma ledger_append_only_witness :
  exists added,
    ledger (run [PostLogin (body1 "pin" "1234");
                 PostWithdraw (body1 "amount" "50") noon; PostLogout] new_client)
    = (ledger new_client ++ added)%list
    /\ (List.length added <= 1)%nat
    /\ Forall (fun t => type t = "withdrawal") added.
Proof.
  apply (ledger_append_only
           [PostLogin (body1 "pin" "1234"); PostWithdraw (body1 "amount" "50") noon;
            PostLogout] new_client).
  repeat constructor; discriminate.
Defined.

Lemma admin_only_by_password_witness :
  is_admin (session (after (PostLogin (body1 "pin" "4321")) customer_world)) = Some true
  /\ (is_admin (session customer_world) = Some true
      \/ exists data,
           PostLogin (body1 "pin" "4321") = PostLogin data
           /\ credential data = ADMIN_PASSWORD).
Proof.
  assert (H : is_admin (session (after (PostLogin (body1 "pin" "4321")) customer_world))
              = Some true) by (vm_compute; reflexivity).
  split; [exact H|].
  exact (admin_only_by_password (PostLogin (body1 "pin" "4321")) customer_world H).
Defined.

Lemma logged_in_only_by_login_witness :
  logged_in (session (after (PostLogin (body1 "pin" "1234")) new_client)) = Some true
  /\ (logged_in (session new_client) = Some true
      \/ exists data,
           PostLogin (body1 "pin" "1234") = PostLogin data
           /\ (credential data = ADMIN_PASSWORD
               \/ credential data = default DEFAULT_PIN (pin (session new_client)))).
Proof.
  assert (H : logged_in (session (after (PostLogin (body1 "pin" "1234")) new_client))
              = Some true) by (vm_compute; reflexivity).
  split; [exact H|].
  exact (logged_in_only_by_login (PostLogin (body1 "pin" "1234")) new_client H).
Defined.

Lemma pin_changes_only_by_confirmation_witness :
  pin (session confirming_world) = Some "1234"
  /\ (pin (session (after (PostChangePin (body1 "pin" "5678")) confirming_world))
      = Some "1234"
      \/ ((PostChangePin (body1 "pin" "5678") = PostLogout
           \/ PostChangePin (body1 "pin" "5678") = PostResetData true)
          /\ pin (session (after (PostChangePin (body1 "pin" "5678")) confirming_world))
             = None)
      \/ exists data,
           PostChangePin (body1 "pin" "5678") = PostChangePin data
           /\ not_customer (session confirming_world) = false
           /\ pin_change_step (session confirming_world) = Some 2
           /\ new_pin (session confirming_world) = Some (credential data)
           /\ pin (session (after (PostChangePin (body1 "pin" "5678")) confirming_world))
              = Some (credential data)).
Proof.
  assert (H : pin (session confirming_world) = Some "1234") by (vm_compute; reflexivity).
  split; [exact H|].
  exact (pin_changes_only_by_confirmation (PostChangePin (body1 "pin" "5678"))
           confirming_world "1234" H).
Defined.

Lemma balance_changes_only_by_withdrawal_witness :
  balance (session customer_world) = Some STARTING_BALANCE
  /\ (balance (session withdrawn_world) = Some STARTING_BALANCE
      \/ ((PostWithdraw (body1 "amount" "50") noon = PostLogout
           \/ PostWithdraw (body1 "amount" "50") noon = PostResetData true)
          /\ balance (session withdrawn_world) = None)
      \/ exists data now a new_balance,
           PostWithdraw (body1 "amount" "50") noon = PostWithdraw data now
           /\ not_customer (session customer_world) = false
           /\ validate_withdrawal (default "" (data !! "amount")) STARTING_BALANCE
              = Return (true, PInt a)
           /\ sub_int STARTING_BALANCE a = Return new_balance
           /\ balance (session withdrawn_world) = Some new_balance).
Proof.
  assert (H : balance (session customer_world) = Some STARTING_BALANCE)
    by (vm_compute; reflexivity).
  split; [exact H|].
  exact (balance_changes_only_by_withdrawal (PostWithdraw (body1 "amount" "50") noon)
           customer_world STARTING_BALANCE H).
Defined.

Lemma change_pin_flow_witness :
  run [PostChangePin (body1 "pin" "1234"); PostChangePin (body1 "pin" "5678");
       PostChangePin (body1 "pin" "5678")] customer_world
  = mkWorld (mkSession (Some "5678") (Some STARTING_BALANCE) (Some true) (Some false)
               (Some 0) None) None.
Proof.
  apply (change_pin_flow (body1 "pin" "1234") (body1 "pin" "5678") (body1 "pin" "5678")
           customer_world "1234" "5678"); vm_compute; reflexivity.
Defined.

Lemma change_pin_retry_witness :
  run [PostChangePin (body1 "pin" "0000"); PostChangePin (body1 "pin" "9999");
       PostChangePin (body1 "pin" "9999")] confirming_world
  = mkWorld (mkSession (Some "9999") (Some STARTING_BALANCE) (Some true) (Some false)
               (Some 0) None) None.
Proof.
  apply (change_pin_retry (body1 "pin" "0000") (body1 "pin" "9999") (body1 "pin" "9999")
           confirming_world "9999");
    first [ vm_compute; reflexivity | vm_compute; discriminate ].
Defined.

Lemma logout_restores_defaults_witness :
  balance (session withdrawn_world) = Some (S754_finite false 5168584259849421 (-46))
  /\ snd (api_login (body1 "pin" "1234") (after PostLogout withdrawn_world))
     = Return (customer_welcome 1 STARTING_BALANCE).
Proof.
  split; [vm_compute; reflexivity|].
  rewrite (logout_restores_defaults (body1 "pin" "1234") withdrawn_world)
    by (vm_compute; reflexivity).
  vm_compute. reflexivity.
Defined.

Lemma customer_routes_need_customer_witness :
  api_balance new_client = (new_client, Return not_authorized)
  /\ api_withdraw (body1 "amount" "10") noon new_client = (new_client, Return not_authorized)
  /\ api_change_pin (body1 "pin" "1234") new_client = (new_client, Return not_authorized).
Proof.
  apply (customer_routes_need_customer (body1 "amount" "10") noon new_client).
  vm_compute. reflexivity.
Defined.

Lemma reachable_balance_query_witness :
  exists b,
    balance (session withdrawn_world) = Some b
    /\ api_balance withdrawn_world
       = (withdrawn_world, Return (jsonify [("balance", JFloat b)], 200)).
Proof.
  apply (reachable_balance_query withdrawn_world reachable_withdrawn_world).
  vm_compute. reflexivity.
Defined.

Lemma withdrawal_shows_in_history_witness :
  exists t,
    let w' := after (PostWithdraw (body1 "amount" "5e1") noon) customer_world in
    ledger w' = (ledger customer_world ++ [t])%list
    /\ amount t = 50 /\ timestamp t = noon
    /\ api_transactions w' = (w', Return (history (ledger customer_world ++ [t])))
    /\ forall d, credential d = ADMIN_PASSWORD ->
         snd (api_transactions (after (PostLogin d) w'))
         = Return (history (ledger customer_world ++ [t])).
Proof.
  apply (withdrawal_shows_in_history (body1 "amount" "5e1") noon customer_world
           STARTING_BALANCE (S754_finite false 7036874417766400 (-47)) 50
           reachable_customer_world);
    first [ vm_compute; reflexivity | lia ].
Defined.

Lemma withdraw_refuses_invalid_witness :
  exists message,
    api_withdraw (body1 "amount" "25") noon customer_world
    = (customer_world, Return (refused message))
    /\ is_success (refused message) = false.
Proof.
  apply (withdraw_refuses_invalid (body1 "amount" "25") noon customer_world STARTING_BALANCE).
  - vm_compute. reflexivity.
  - vm_compute. reflexivity.
  - vm_compute. discriminate.
  - intros (f & n & Hp & Hn & _ & Hmod & _).
    assert (Hf : parse (default "" (body1 "amount" "25" !! "amount"))
                 = Some (S754_finite false 7036874417766400 (-48)))
      by (vm_compute; reflexivity).
    rewrite Hf in Hp. injection Hp as <-.
    assert (H25 : is_integer (S754_finite false 7036874417766400 (-48)) 25)
      by (vm_compute; reflexivity).
    rewrite (is_integer_unique _ _ _ Hn H25) in Hmod. vm_compute in Hmod. discriminate.
Defined.

Lemma reachable_withdraw_exact_witness :
  exists w' r,
    api_withdraw (body1 "amount" "70") noon withdrawn_world = (w', Return r)
    /\ exists (f : float) (a : Z) (g new_balance : float) (qb qn : Q),
         parse "70" = Some f /\ is_integer f a
         /\ validate_withdrawal "70" (S754_finite false 5168584259849421 (-46))
            = Return (true, PInt a)
         /\ 0 < a /\ a mod 10 = 0
         /\ session w' = set_balance new_balance (session withdrawn_world)
         /\ file w'
            = Some (ledger withdrawn_world ++ [withdrawal_record noon a g new_balance])%list
         /\ r = withdrawn (format_2f g) new_balance (withdrawal_record noon a g new_balance)
         /\ to_Q (S754_finite false 5168584259849421 (-46)) = Some qb
         /\ to_Q new_balance = Some qn
         /\ Qeq qn (Qminus qb (inject_Z a)) /\ Qle (inject_Z 0) qn.
Proof.
  eexists _, _. split; [vm_compute; reflexivity|].
  eapply (reachable_withdraw_exact (body1 "amount" "70") noon withdrawn_world);
    [exact reachable_withdrawn_world | vm_compute; reflexivity..].
Defined.

(** A withdrawal of 50 recorded at noon, on a ledger that has no file yet
    and on one whose amount no float can hold. *)
Lemma add_transaction_appends_witness :
  (exists t,
     add_transaction 50 (S754_finite false 5168584259849421 (-46)) noon "withdrawal"
       customer_world
     = (mkWorld (session customer_world) (Some [t]), Return t)
     /\ formatted t = "2024-01-01 12:00:00 | Withdrawal " +:+ pound +:+ "50.00 | Balance "
                        +:+ pound +:+ "73.45")
  /\ add_transaction (10 ^ 400) STARTING_BALANCE noon "withdrawal" customer_world
     = (customer_world, Raise OverflowError).
Proof.
  assert (Hascii : ascii_only "withdrawal") by (repeat constructor).
  split.
  - pose proof (add_transaction_appends 50 (S754_finite false 5168584259849421 (-46))
                  noon "withdrawal" customer_world Hascii) as H.
    assert (Hg : of_int 50 = Return (S754_finite false 7036874417766400 (-47)))
      by (vm_compute; reflexivity).
    rewrite Hg in H. cbn zeta in H. eexists. split; [exact H|].
    vm_compute. reflexivity.
  - pose proof (add_transaction_appends (10 ^ 400) STARTING_BALANCE noon "withdrawal"
                  customer_world Hascii) as H.
    assert (Hg : of_int (10 ^ 400) = Raise OverflowError) by (vm_compute; reflexivity).
    rewrite Hg in H. exact H.
Defined.

Lemma pin_equal_to_admin_password_locks_out_witness :
  reachable shadowed_world
  /\ pin (session shadowed_world) = Some "4321"
  /\ snd (api_login (body1 "pin" "4321") shadowed_world) = Return admin_welcome
  /\ snd (api_login (body1 "pin" "1234") shadowed_world)
     = Return (refused login_failed_message).
Proof.
  assert (Hp : pin (session shadowed_world) = Some ADMIN_PASSWORD)
    by (vm_compute; reflexivity).
  split; [exact reachable_shadowed_world|]. split; [exact Hp|]. split.
  - destruct (pin_equal_to_admin_password_locks_out (body1 "pin" "4321") shadowed_world Hp)
      as [_ [(_ & H & _) | (Hne & _)]]; [exact H|].
    exfalso. apply Hne. vm_compute. reflexivity.
  - destruct (pin_equal_to_admin_password_locks_out (body1 "pin" "1234") shadowed_world Hp)
      as [_ [(He & _) | (_ & H)]]; [|exact H].
    exfalso. vm_compute in He. discriminate.
Defined.

Lemma reset_data_starts_over_witness :
  snd (api_login (body1 "pin" "1234") (after (PostResetData true) withdrawn_world))
  = Return (customer_welcome 0 STARTING_BALANCE)
  /\ ledger withdrawn_world <> []
  /\ ledger (after (PostResetData true) withdrawn_world) = [].
Proof.
  destruct (reset_data_starts_over (body1 "pin" "1234") withdrawn_world)
    as (H1 & H2 & _); [vm_compute; reflexivity|].
  split; [exact H1|]. split; [vm_compute; discriminate | exact H2].
Defined.
